(** * PEX Competitor Research Agent

    A shallow embedding of [main.py] (class [CompetitorAgent] and the
    [Announcement] dataclass) together with the properties of its run-window
    tracker, candidate extractor, classifier step, report builder and run
    coordinator.

    Conventions.
    - Python [str] is [string]; a character stands for one code point below
      256, so slicing, [strip] and comparison are the ones of the source.
    - Python [float] is the kernel's binary64 [float]; [int] is [Z].
    - A value of dynamic type (what [json.loads] returns) is a [pyval].
    - An exception is a constructor of [exn]; a computation that may raise
      returns a [result]; stateful code lives in the monad [M] over [world].
    - [datetime.now()], [requests.get], the chat completion and the outcome of
      opening a file for writing are answers of the environment ([Env]),
      indexed by the number of interactions made so far.
    - Functions of the Python library whose details no property depends on
      ([datetime.fromisoformat], [isoformat], [strftime], [str()]) are the
      fields of [PyRuntime]; a reference instance is given for evaluation.
    - Calls to [logger] and the request headers are left out; where a handler
      only logs, a comment says so. *)

From Stdlib Require Import ZArith Lia Bool List String Ascii Floats.
From Stdlib Require Import Permutation Sorted DecimalString.
Import ListNotations.

Set Warnings "-register-all,-inexact-float".

Local Open Scope list_scope.
Local Open Scope string_scope.
Local Open Scope Z_scope.

(** ** Text *)

Module Text.

(** The double quote, for the literals of the source that contain one. *)
Definition dq : string := String (ascii_of_nat 34) EmptyString.

Definition nl : string := String (ascii_of_nat 10) EmptyString.

(** [str.isspace] on one character (code points below 256). *)
Definition is_space (c : ascii) : bool :=
  let n := N_of_ascii c in
  ((9 <=? n) && (n <=? 13) || (28 <=? n) && (n <=? 32)
   || (n =? 133) || (n =? 160))%N.

Fixpoint lstrip (s : string) : string :=
  match s with
  | String c t => if is_space c then lstrip t else s
  | EmptyString => EmptyString
  end.

Fixpoint rstrip (s : string) : string :=
  match s with
  | String c t =>
      match rstrip t with
      | EmptyString => if is_space c then EmptyString else String c EmptyString
      | t' => String c t'
      end
  | EmptyString => EmptyString
  end.

(** [s.strip()] *)
Definition strip (s : string) : string := rstrip (lstrip s).

(** [s.startswith(p)] *)
Definition startswith (s p : string) : bool := prefix p s.

(** [s.replace(c, by)] for a one-character pattern. *)
Fixpoint replace (c : ascii) (by_ : string) (s : string) : string :=
  match s with
  | String x t =>
      if Ascii.eqb x c then by_ ++ replace c by_ t else String x (replace c by_ t)
  | EmptyString => EmptyString
  end.

(** [s[:n]] *)
Definition take (n : nat) (s : string) : string := substring 0 n s.

(** Truth value of a [str]: non-empty. *)
Definition nonempty (s : string) : bool :=
  match s with EmptyString => false | String _ _ => true end.

(** [sub in s] *)
Fixpoint contains (sub s : string) : bool :=
  prefix sub s || match s with
                  | String _ t => contains sub t
                  | EmptyString => false
                  end.

Definition is_digit (c : ascii) : bool :=
  let n := N_of_ascii c in ((48 <=? n) && (n <=? 57))%N.

Fixpoint has_digit (s : string) : bool :=
  match s with
  | String c t => is_digit c || has_digit t
  | EmptyString => false
  end.

(** Decimal rendering of integers ([str(int)], [%d]). *)
Definition of_N (n : N) : string := NilZero.string_of_uint (N.to_uint n).

Definition of_Z (z : Z) : string :=
  if z <? 0 then "-" ++ of_N (Z.abs_N z) else of_N (Z.to_N z).

Fixpoint zeros (n : nat) : string :=
  match n with O => EmptyString | S k => String "0" (zeros k) end.

(** [%0<w>d] for a non-negative number. *)
Definition zfill (w : nat) (z : Z) : string :=
  let s := of_Z z in zeros (w - String.length s) ++ s.

Fixpoint repeat_char (c : ascii) (n : nat) : string :=
  match n with O => EmptyString | S k => String c (repeat_char c k) end.

End Text.

(** ** Dynamic values, exceptions *)

Inductive exn : Type :=
| KeyError (key : string)
| TypeError
| ValueError
| AttributeError
| OverflowError
| OSError.

Inductive result (A : Type) : Type :=
| Ok (a : A)
| Raise (e : exn).

Arguments Ok {A} a.
Arguments Raise {A} e.

Definition rbind {A B : Type} (r : result A) (k : A -> result B) : result B :=
  match r with
  | Ok a => k a
  | Raise e => Raise e
  end.

(** What [json.loads] can return. A [dict] is kept as its item list, in
    insertion order, with distinct keys. *)
Inductive pyval : Type :=
| PNone
| PBool (b : bool)
| PInt (z : Z)
| PFloat (f : float)
| PStr (s : string)
| PList (items : list pyval)
| PDict (items : list (string * pyval)).

(** [bool(v)] *)
Definition truthy (v : pyval) : bool :=
  match v with
  | PNone => false
  | PBool b => b
  | PInt z => negb (z =? 0)
  | PFloat f => negb (PrimFloat.eqb f 0%float)
  | PStr s => Text.nonempty s
  | PList l => match l with [] => false | _ => true end
  | PDict d => match d with [] => false | _ => true end
  end.

Fixpoint lookup (k : string) (d : list (string * pyval)) : option pyval :=
  match d with
  | [] => None
  | (k', v) :: t => if String.eqb k' k then Some v else lookup k t
  end.

(** [result.get(k, default)]; an object without [get] raises. *)
Definition py_get (v : pyval) (k : string) (default : pyval) : result pyval :=
  match v with
  | PDict d => Ok match lookup k d with Some x => x | None => default end
  | _ => Raise AttributeError
  end.

(** [result[k]] *)
Definition py_getitem (v : pyval) (k : string) : result pyval :=
  match v with
  | PDict d => match lookup k d with Some x => Ok x | None => Raise (KeyError k) end
  | _ => Raise TypeError
  end.

(** ** Numbers *)

Module Num.

(** The integer nearest to [num / den], ties to even ([den > 0]). *)
Definition round_half_even (num den : Z) : Z :=
  let q := num / den in
  let r := num mod den in
  if 2 * r <? den then q
  else if den <? 2 * r then q + 1
  else if Z.even q then q else q + 1.

(** Exact comparison [z > f] of an [int] with a [float], as CPython does it:
    no rounding of the integer. *)
Definition int_gt_float (z : Z) (f : float) : bool :=
  match Prim2SF f with
  | S754_nan => false
  | S754_infinity s => s
  | S754_zero _ => 0 <? z
  | S754_finite s m e =>
      let v := if s then Z.neg m else Z.pos m in
      if 0 <=? e then v * 2 ^ e <? z else v <? z * 2 ^ (- e)
  end.

(** [float(z)] as mantissa and exponent of the magnitude, rounded to 53
    bits; [None] is [OverflowError]. *)
Definition int_as_double (z : Z) : option (Z * Z) :=
  let a := Z.abs z in
  let k := Z.log2 a + 1 - 53 in
  if k <=? 0 then Some (a, 0)
  else
    let m := round_half_even a (2 ^ k) in
    if 2 ^ 1024 <=? m * 2 ^ k then None else Some (m, k).

(** One decimal place of [m * 2^e], correctly rounded, with its sign. *)
Definition fixed1 (neg : bool) (m e : Z) : string :=
  let n := if 0 <=? e then 10 * m * 2 ^ e
           else round_half_even (10 * m) (2 ^ (- e)) in
  (if neg then "-" else "") ++ Text.of_Z (n / 10) ++ "." ++ Text.of_Z (n mod 10).

Definition float_1f (f : float) : string :=
  match Prim2SF f with
  | S754_nan => "nan"
  | S754_infinity s => if s then "-inf" else "inf"
  | S754_zero s => fixed1 s 0 0
  | S754_finite s m e => fixed1 s (Z.pos m) e
  end.

End Num.

(** [v > t] for a float [t]: numbers compare, anything else is a
    [TypeError]. *)
Definition py_gt_float (v : pyval) (t : float) : result bool :=
  match v with
  | PFloat f => Ok (PrimFloat.ltb t f)
  | PInt z => Ok (Num.int_gt_float z t)
  | PBool b => Ok (Num.int_gt_float (if b then 1 else 0) t)
  | _ => Raise TypeError
  end.

(** [format(v, '.1f')] *)
Definition format_1f (v : pyval) : result string :=
  match v with
  | PFloat f => Ok (Num.float_1f f)
  | PInt z =>
      match Num.int_as_double z with
      | Some (m, e) => Ok (Num.fixed1 (z <? 0) m e)
      | None => Raise OverflowError
      end
  | PBool b => Ok (if b then "1.0" else "0.0")
  | PStr _ => Raise ValueError
  | _ => Raise TypeError
  end.

(** ** [str.__format__]

    The replacement field [{value:spec}] of an f-string calls
    [format(value, spec)]. For a [str] value CPython parses the
    specification as
    [[[fill]align][sign][z][#][0][width][grouping][.precision][type]] and
    raises [ValueError] when something is left over, when a sign, [z], [#],
    [=] or a grouping option is given, when the precision has no digits, or
    when the type is not [s]. *)

Module StrFormat.

Definition is_align (c : ascii) : bool :=
  (Ascii.eqb c "<" || Ascii.eqb c ">" || Ascii.eqb c "=" || Ascii.eqb c "^")%char.

Definition is_sign (c : ascii) : bool :=
  (Ascii.eqb c "+" || Ascii.eqb c "-" || Ascii.eqb c " ")%char.

Definition is_grouping (c : ascii) : bool :=
  (Ascii.eqb c "," || Ascii.eqb c "_")%char.

Definition parse_fill_align (s : string) : option ascii * option ascii * string :=
  match s with
  | String c0 (String c1 r) =>
      if is_align c1 then (Some c0, Some c1, r)
      else if is_align c0 then (None, Some c0, String c1 r)
      else (None, None, s)
  | String c0 r => if is_align c0 then (None, Some c0, r) else (None, None, s)
  | EmptyString => (None, None, s)
  end.

Definition take_if (p : ascii -> bool) (s : string) : bool * string :=
  match s with
  | String c r => if p c then (true, r) else (false, s)
  | EmptyString => (false, s)
  end.

Fixpoint read_digits (acc : option N) (s : string) : option N * string :=
  match s with
  | String c r =>
      if Text.is_digit c
      then read_digits
             (Some (10 * match acc with Some n => n | None => 0 end
                    + (N_of_ascii c - 48))%N) r
      else (acc, s)
  | EmptyString => (acc, s)
  end.

Definition pad (fill : ascii) (align : option ascii) (width : nat) (s : string)
  : string :=
  let n := (width - String.length s)%nat in
  match align with
  | Some ">"%char => Text.repeat_char fill n ++ s
  | Some "^"%char =>
      Text.repeat_char fill (n / 2) ++ s ++ Text.repeat_char fill (n - n / 2)
  | _ => s ++ Text.repeat_char fill n
  end.

Definition format (value spec : string) : result string :=
  let '(fill, align, s1) := parse_fill_align spec in
  let '(sign, s2) := take_if is_sign s1 in
  let '(z, s3) := take_if (Ascii.eqb "z") s2 in
  let '(alt, s4) := take_if (Ascii.eqb "#") s3 in
  let '(zero, s5) := take_if (Ascii.eqb "0") s4 in
  let '(width, s6) := read_digits None s5 in
  let '(grouping, s7) := take_if is_grouping s6 in
  let '(dot, s8) := take_if (Ascii.eqb ".") s7 in
  let '(precision, s9) := read_digits None s8 in
  let type_ok :=
    match s9 with
    | EmptyString => true
    | String c EmptyString => Ascii.eqb c "s"
    | _ => false
    end in
  let align_ok :=
    match align with Some c => negb (Ascii.eqb c "=") | None => true end in
  let precision_ok :=
    match precision with Some _ => true | None => negb dot end in
  if type_ok && align_ok && precision_ok
     && negb (sign || z || alt || grouping)
  then
    let fill_char :=
      match fill with
      | Some c => c
      | None => if zero then "0"%char else " "%char
      end in
    let shown :=
      match precision with
      | Some p => Text.take (N.to_nat p) value
      | None => value
      end in
    Ok (pad fill_char align
          (match width with Some w => N.to_nat w | None => O end) shown)
  else Raise ValueError.

End StrFormat.

(** ** Time

    A [datetime] is the reading of a wall clock in microseconds since
    0001-01-01T00:00:00, with the UTC offset of its [tzinfo] when it has one
    (an aware datetime) and [None] when it is naive. *)

Record datetime : Type := mk_datetime {
  wall : Z;
  utcoffset : option Z
}.

(** [timedelta(days=n)] in microseconds. *)
Definition timedelta_days (n : Z) : Z := n * 86400000000.

(** [d - delta] *)
Definition dt_sub (d : datetime) (delta : Z) : datetime :=
  {| wall := wall d - delta; utcoffset := utcoffset d |}.

(** Ordering of two datetimes: by wall clock when both are naive, by UTC
    instant when both are aware, [TypeError] ("can't compare offset-naive
    and offset-aware datetimes") otherwise. *)
Definition dt_compare (a b : datetime) : result comparison :=
  match utcoffset a, utcoffset b with
  | None, None => Ok (wall a ?= wall b)
  | Some oa, Some ob => Ok (wall a - oa ?= wall b - ob)
  | _, _ => Raise TypeError
  end.

(** [a < b] *)
Definition dt_lt (a b : datetime) : result bool :=
  rbind (dt_compare a b)
        (fun c => Ok match c with Lt => true | _ => false end).

(** [a >= b] *)
Definition dt_ge (a b : datetime) : result bool :=
  rbind (dt_compare a b)
        (fun c => Ok match c with Lt => false | _ => true end).

(** ** The Python runtime and the outside world *)

(** Library functions the agent calls. [fromisoformat] answers [None] where
    Python raises [ValueError]. *)
Class PyRuntime : Type := {
  fromisoformat : string -> option datetime;
  isoformat : datetime -> string;
  strftime : datetime -> string -> string;
  py_str : pyval -> string
}.

(** One element matched by [article.find(['time', ...])]: its [datetime]
    attribute and its text. *)
Record date_element : Type := {
  datetime_attr : option string;
  date_text : string
}.

(** One element matched by a selector, seen through the calls the scraper
    makes on it: the text of the first heading or link
    ([find(['h1','h2','h3','h4','a'])]), the [href] of the first link when
    there is a link ([find('a')], then [get('href')]), the first date
    element, and [get_text()]. *)
Record article : Type := {
  title_elem : option string;
  link_elem : option (option string);
  date_elem : option date_element;
  article_text : string
}.

(** A parsed page: what [soup.select(selector)] returns. *)
Definition soup : Type := string -> list article.

(** Outcome of [requests.get] followed by the parse of the body:
    a response, a [requests.RequestException], or any other exception. *)
Inductive http_result : Type :=
| Response (status_code : Z) (page : soup)
| RequestException
| OtherException.

Inductive file : Type :=
| Missing
| Unreadable
| Content (text : string).

Inductive event : Type :=
| EvGet (url : string) (r : http_result)
| EvChat (prompt : string)
| EvSleep (seconds : Z)
| EvWrite (filename : string) (ok : bool).

(** The environment: the clock, the network, the classifier service (the
    answer is the message content decoded by [json.loads], [None] when the
    call or the decoding raises) and whether a file opens for writing; each
    is asked with the number of interactions made so far. *)
Class Env : Type := {
  clock : nat -> Z;
  http : nat -> string -> http_result;
  chat : nat -> string -> option pyval;
  can_write : nat -> string -> bool
}.

(** The state a run reads and changes: the interaction count, the
    timestamp file, the files of the reports directory (latest first) and
    the interactions made so far, in order. *)
Record world : Type := mk_world {
  steps : nat;
  stamp : file;
  reports : list (string * string);
  trace : list event
}.

(** State and exceptions. *)
Definition M (A : Type) : Type := world -> result A * world.

Definition ret {A : Type} (a : A) : M A := fun w => (Ok a, w).

Definition raise {A : Type} (e : exn) : M A := fun w => (Raise e, w).

Definition lift {A : Type} (r : result A) : M A := fun w => (r, w).

Definition bind {A B : Type} (m : M A) (k : A -> M B) : M B :=
  fun w =>
    match m w with
    | (Ok a, w') => k a w'
    | (Raise e, w') => (Raise e, w')
    end.

(** [try: m  except Exception as e: h e] *)
Definition try_except {A : Type} (m : M A) (h : exn -> M A) : M A :=
  fun w =>
    match m w with
    | (Ok a, w') => (Ok a, w')
    | (Raise e, w') => h e w'
    end.

Declare Scope monad_scope.
Delimit Scope monad_scope with monad.
Notation "x <- m ;; k" := (bind m (fun x => k))
  (at level 61, m at next level, right associativity) : monad_scope.
Notation "' p <- m ;; k" := (bind m (fun p => k))
  (at level 61, p pattern, m at next level, right associativity) : monad_scope.
Notation "m ;; k" := (bind m (fun _ => k))
  (at level 61, right associativity) : monad_scope.
Notation "r1 >>= k" := (rbind r1 k) (at level 50, left associativity) : monad_scope.
Local Open Scope monad_scope.

Definition step (ev : list event) (w : world) : world :=
  {| steps := S (steps w); stamp := stamp w; reports := reports w;
     trace := (trace w ++ ev)%list |}.

Section Primitives.
Context `{Env}.

(** [datetime.now()]: a naive datetime. *)
Definition datetime_now : M datetime :=
  fun w => (Ok {| wall := clock (steps w); utcoffset := None |}, step [] w).

(** [requests.get(url, headers=headers, timeout=10)] and the parse of the
    body; the exceptions are raised where the caller examines the outcome. *)
Definition requests_get (url : string) : M http_result :=
  fun w => let r := http (steps w) url in (Ok r, step [EvGet url r] w).

(** [chat.completions.create(...)] then [json.loads] of the content. *)
Definition chat_completion (prompt : string) : M pyval :=
  fun w =>
    (match chat (steps w) prompt with
     | Some v => Ok v
     | None => Raise ValueError
     end, step [EvChat prompt] w).

(** [time.sleep(seconds)] *)
Definition time_sleep (seconds : Z) : M unit :=
  fun w => (Ok tt, step [EvSleep seconds] w).

(** [open(filename, 'w')]: an [OSError] when the file does not open. *)
Definition open_write (filename : string) : M unit :=
  fun w =>
    let ok := can_write (steps w) filename in
    (if ok then Ok tt else Raise OSError, step [EvWrite filename ok] w).

End Primitives.

(** [os.path.exists(self.timestamp_file)] *)
Definition stamp_exists : M bool :=
  fun w => (Ok match stamp w with Missing => false | _ => true end, w).

(** [open(self.timestamp_file, 'r')] and [f.read()] *)
Definition read_stamp : M string :=
  fun w =>
    (match stamp w with
     | Content s => Ok s
     | _ => Raise OSError
     end, w).

Definition write_stamp (text : string) : M unit :=
  fun w =>
    (Ok tt, {| steps := steps w; stamp := Content text; reports := reports w;
               trace := trace w |}).

Definition write_report (filename text : string) : M unit :=
  fun w =>
    (Ok tt, {| steps := steps w; stamp := stamp w;
               reports := (filename, text) :: reports w; trace := trace w |}).

(** ** Data *)

(** The dataclass [Announcement]. The first six fields are copied from the
    scraped candidate and are [str]; the last four are whatever the
    classifier's answer holds under those keys. *)
Record Announcement : Type := mk_Announcement {
  company : string;
  title : string;
  date : string;
  url : string;
  content : string;
  source : string;
  importance_score : pyval;
  category : pyval;
  summary : pyval;
  implications : pyval
}.

(** The [dict] the scraper builds for one candidate (keys ['company'],
    ['title'], ['date'], ['url'], ['content'], ['source']). *)
Module Raw.
Record dict : Type := mk {
  company : string;
  title : string;
  date : string;
  url : string;
  content : string;
  source : string
}.
End Raw.

Record company_info : Type := {
  name : string;
  websites : list string;
  linkedin : string
}.

(** ** [CompetitorAgent] *)

Module CompetitorAgent.

(** [self.companies] *)
Definition companies : list (string * company_info) :=
  [ ("uponor",
     {| name := "Uponor";
        websites := ["https://www.uponor.com"; "https://www.georgfischer.com"];
        linkedin := "https://www.linkedin.com/company/uponor" |});
    ("viega",
     {| name := "Viega";
        websites := ["https://www.viega.com"];
        linkedin := "https://www.linkedin.com/company/viega" |}) ].

Definition timestamp_file : string := "last_run_timestamp.txt".

Definition reports_dir : string := "reports".

Definition news_paths : list string :=
  ["/news"; "/press"; "/press-releases"; "/media"; "/newsroom"; "/media-center"].

Definition article_selectors : list string :=
  ["article"; ".news-item"; ".press-release"; ".media-item";
   "[class*=" ++ Text.dq ++ "news" ++ Text.dq ++ "]";
   "[class*=" ++ Text.dq ++ "press" ++ Text.dq ++ "]"].

Section Agent.
Context `{PyRuntime} `{Env}.

(** *** Run-window tracker *)

Definition get_last_run_timestamp : M datetime :=
  try_except
    (now <- datetime_now ;;
     let max_lookback := dt_sub now (timedelta_days 30) in
     found <- stamp_exists ;;
     if found : bool then
       text <- read_stamp ;;
       let timestamp_str := Text.strip text in
       match fromisoformat timestamp_str with
       | None => raise ValueError
       | Some last_run =>
           older <- lift (dt_lt last_run max_lookback) ;;
           if older : bool then ret max_lookback else ret last_run
       end
     else
       now' <- datetime_now ;;
       ret (dt_sub now' (timedelta_days 7)))
    (fun _ =>
       now <- datetime_now ;;
       ret (dt_sub now (timedelta_days 7))).

Definition update_timestamp : M unit :=
  try_except
    (open_write timestamp_file ;;
     now <- datetime_now ;;
     write_stamp (isoformat now))
    (fun _ => (* logger.error *) ret tt).

(** *** Candidate extractor *)

(** [article_url]: the [href] of the first link, completed with the site
    when it starts with a slash; the page itself when there is no link or
    no [href]. *)
Definition article_link (url news_url : string) (art : article) : string :=
  match link_elem art with
  | Some (Some href) =>
      if Text.nonempty href
      then if Text.startswith href "/" then url ++ href else href
      else news_url
  | _ => news_url
  end.

(** [article_date]: [now] unless the block has a date element whose
    [datetime] attribute, or else its text, parses. *)
Definition resolve_date (art : article) (now : datetime) : datetime :=
  match date_elem art with
  | Some elem =>
      let date_str :=
        match datetime_attr elem with
        | Some a => if Text.nonempty a then a else date_text elem
        | None => date_text elem
        end in
      match fromisoformat (Text.replace "Z" "+00:00" date_str) with
      | Some parsed => parsed
      | None => now
      end
  | None => now
  end.

(** The [dict] appended for a block. *)
Definition candidate (url news_url company : string) (art : article)
    (title_text : string) (article_date : datetime) : Raw.dict :=
  {| Raw.company := company;
     Raw.title := Text.strip title_text;
     Raw.date := isoformat article_date;
     Raw.url := article_link url news_url art;
     Raw.content := Text.take 1000 (article_text art);
     Raw.source := "website" |}.

(** The body of [for article in articles]; [announcements] is the list
    built so far. A block without title element is skipped; an exception
    while the block is processed (the comparison of an aware with a naive
    datetime) is caught, and the block skipped. *)
Definition process_article (url news_url company : string) (since_date : datetime)
    (art : article) (announcements : list Raw.dict) : M (list Raw.dict) :=
  match title_elem art with
  | None => ret announcements
  | Some title_text =>
      now <- datetime_now ;;
      let article_date := resolve_date art now in
      match dt_ge article_date since_date with
      | Ok true =>
          ret (announcements ++
               [candidate url news_url company art title_text article_date])%list
      | Ok false => ret announcements
      | Raise _ => ret announcements
      end
  end.

(** [for article in articles: ...] *)
Fixpoint articles_loop (url news_url company : string) (since_date : datetime)
    (articles : list article) (announcements : list Raw.dict)
  : M (list Raw.dict) :=
  match articles with
  | [] => ret announcements
  | art :: rest =>
      announcements' <-
        process_article url news_url company since_date art announcements ;;
      articles_loop url news_url company since_date rest announcements'
  end.

(** [for selector in article_selectors: ...], left at the first selector
    that matches something. *)
Fixpoint selectors_loop (url news_url company : string) (since_date : datetime)
    (page : soup) (selectors : list string) (announcements : list Raw.dict)
  : M (list Raw.dict) :=
  match selectors with
  | [] => ret announcements
  | selector :: rest =>
      let articles := page selector in
      announcements' <-
        articles_loop url news_url company since_date articles announcements ;;
      match articles with
      | _ :: _ => ret announcements'
      | [] => selectors_loop url news_url company since_date page rest
                             announcements'
      end
  end.

(** How the body of [for path in news_paths] ends. *)
Inductive control : Type :=
| Continue
| Break
| Propagate.

(** The body of [for path in news_paths]: one fetch and, on status 200, the
    extraction. It ends with [break] when the list is not empty after the
    extraction, goes on to the next path otherwise and after a
    [requests.RequestException], and hands any other exception to the
    handler around the loop. *)
Definition visit_path (url company : string) (since_date : datetime)
    (path : string) (announcements : list Raw.dict)
  : M (control * list Raw.dict) :=
  let news_url := url ++ path in
  response <- requests_get news_url ;;
  match response with
  | Response status_code page =>
      if status_code =? 200 then
        announcements' <-
          selectors_loop url news_url company since_date page
                         article_selectors announcements ;;
        match announcements' with
        | _ :: _ => ret (Break, announcements')
        | [] => ret (Continue, announcements')
        end
      else ret (Continue, announcements)
  | RequestException => ret (Continue, announcements)
  | OtherException => ret (Propagate, announcements)
  end.

Fixpoint paths_loop (url company : string) (since_date : datetime)
    (paths : list string) (announcements : list Raw.dict)
  : M (list Raw.dict) :=
  match paths with
  | [] => ret announcements
  | path :: rest =>
      '(ctl, announcements') <-
        visit_path url company since_date path announcements ;;
      match ctl with
      | Continue => paths_loop url company since_date rest announcements'
      | Break => ret announcements'
      | Propagate =>
          (* except Exception: logger.error; then return announcements *)
          ret announcements'
      end
  end.

Definition scrape_website_news (url company : string) (since_date : datetime)
  : M (list Raw.dict) :=
  paths_loop url company since_date news_paths [].

(** *** Classifier step *)

(** The text of the f-string [prompt] up to the brace that opens the JSON
    example. *)
Definition prompt_text (announcement : Raw.dict) : string :=
  "
        You are analyzing a business announcement from "
  ++ Raw.company announcement
  ++ ", a PEX (cross-linked polyethylene) piping manufacturer.

        Title: "
  ++ Raw.title announcement
  ++ "
        Content: "
  ++ Raw.content announcement
  ++ "
        Date: "
  ++ Raw.date announcement
  ++ "
        Source: "
  ++ Raw.source announcement
  ++ "

        Please analyze this announcement and provide:

        1. IMPORTANCE SCORE (0.0-1.0): Rate how important this is for understanding the company's competitive position
           - 0.0-0.3: Low importance (routine updates, minor personnel, ESG initiatives)
           - 0.4-0.6: Medium importance (product updates, regional partnerships)
           - 0.7-1.0: High importance (major product launches, strategic partnerships, financial results, C-suite changes)

        2. CATEGORY: Classify as one of: Product Launch, Financial Results, Partnership, Personnel, Project Win, Technology, Regulatory, Other

        3. SUMMARY: Provide a 2-3 sentence summary of the key points

        4. BUSINESS IMPLICATIONS: Analyze what this means for their competitive position, market strategy, or business prospects (2-3 sentences)

        Filter OUT announcements that are primarily about:
        - ESG/sustainability initiatives without business impact
        - Community involvement or charitable activities
        - Trade show booth announcements
        - Routine compliance updates
        - Minor personnel changes (non-C-suite)

        Respond in this exact JSON format:
        ".

(** In the f-string the JSON example [{ "importance_score": 0.0, ... }] is a
    replacement field: its expression is the string literal
    ["importance_score"] and what follows the colon, up to the closing
    brace, is its format specification. *)
Definition json_example_spec : string :=
  " 0.0,
            " ++ Text.dq ++ "category" ++ Text.dq ++ ": "
    ++ Text.dq ++ "Category" ++ Text.dq ++ ",
            " ++ Text.dq ++ "summary" ++ Text.dq ++ ": "
    ++ Text.dq ++ "Summary text" ++ Text.dq ++ ",
            " ++ Text.dq ++ "implications" ++ Text.dq ++ ": "
    ++ Text.dq ++ "Business implications text" ++ Text.dq ++ ",
            " ++ Text.dq ++ "should_include" ++ Text.dq ++ ": true
        ".

(** The f-string [prompt]: the fields are formatted in order; the fields of
    the candidate are [str] and are formatted with the empty specification. *)
Definition build_prompt (announcement : Raw.dict) : result string :=
  StrFormat.format "importance_score" json_example_spec >>= fun example =>
  Ok (prompt_text announcement ++ example ++ "
        ").

(** The decision taken on the decoded answer, [result] in the source (the
    body of the [try] after [json.loads]). *)
Definition decide (announcement : Raw.dict) (res : pyval)
  : result (option Announcement) :=
  py_get res "should_include" (PBool false) >>= fun should_include =>
  (if truthy should_include
   then py_get res "importance_score" (PInt 0) >>= fun score =>
        py_gt_float score 0.3
   else Ok false) >>= fun accepted =>
  if accepted : bool then
    py_getitem res "importance_score" >>= fun importance_score =>
    py_getitem res "category" >>= fun category =>
    py_getitem res "summary" >>= fun summary =>
    py_getitem res "implications" >>= fun implications =>
    Ok (Some {| company := Raw.company announcement;
                title := Raw.title announcement;
                date := Raw.date announcement;
                url := Raw.url announcement;
                content := Raw.content announcement;
                source := Raw.source announcement;
                importance_score := importance_score;
                category := category;
                summary := summary;
                implications := implications |})
  else Ok None.

Definition analyze_with_openai (announcement : Raw.dict)
  : M (option Announcement) :=
  prompt <- lift (build_prompt announcement) ;;
  try_except
    (res <- chat_completion prompt ;;
     lift (decide announcement res))
    (fun _ => ret None).

(** *** Collection orchestrator *)

(** [for raw_announcement in raw_announcements: ...] *)
Fixpoint analyze_loop (raw_announcements : list Raw.dict)
    (all_announcements : list Announcement) : M (list Announcement) :=
  match raw_announcements with
  | [] => ret all_announcements
  | raw_announcement :: rest =>
      analyzed <- analyze_with_openai raw_announcement ;;
      analyze_loop rest
        match analyzed with
        | Some a => (all_announcements ++ [a])%list
        | None => all_announcements
        end
  end.

(** [for website in company_info['websites']: ...] *)
Fixpoint websites_loop (company_name : string) (since_date : datetime)
    (sites : list string) (all_announcements : list Announcement)
  : M (list Announcement) :=
  match sites with
  | [] => ret all_announcements
  | website :: rest =>
      raw_announcements <- scrape_website_news website company_name since_date ;;
      all_announcements' <- analyze_loop raw_announcements all_announcements ;;
      time_sleep 2 ;;
      websites_loop company_name since_date rest all_announcements'
  end.

(** [for company_key, company_info in self.companies.items(): ...] *)
Fixpoint companies_loop (since_date : datetime)
    (items : list (string * company_info))
    (all_announcements : list Announcement) : M (list Announcement) :=
  match items with
  | [] => ret all_announcements
  | (_, company_info) :: rest =>
      all_announcements' <-
        websites_loop (name company_info) since_date (websites company_info)
                      all_announcements ;;
      companies_loop since_date rest all_announcements'
  end.

Definition collect_announcements (since_date : datetime)
  : M (list Announcement) :=
  companies_loop since_date companies [].

(** *** Report builder *)

(** [(a.company, a.date) < (b.company, b.date)]: the tuples are compared at
    the first component that differs; [str] is ordered by code points. *)
Definition key_lt (a b : Announcement) : bool :=
  match String.compare (company a) (company b) with
  | Lt => true
  | Gt => false
  | Eq => String.ltb (date a) (date b)
  end.

(** [list.sort] is stable and uses [<] on the keys only; its result is the
    one of a stable insertion sort (which is what it runs on short lists). *)
Fixpoint insert (x : Announcement) (l : list Announcement) : list Announcement :=
  match l with
  | [] => [x]
  | y :: t => if key_lt y x then y :: insert x t else x :: y :: t
  end.

Fixpoint sort_ascending (l : list Announcement) : list Announcement :=
  match l with
  | [] => []
  | x :: t => insert x (sort_ascending t)
  end.

(** [announcements.sort(key=lambda x: (x.company, x.date), reverse=True)]:
    with [reverse=True] the list is reversed, sorted, and reversed again, so
    that equal keys keep their order. The value is the new content of the
    caller's list. *)
Definition sort_reverse (announcements : list Announcement) : list Announcement :=
  rev (sort_ascending (rev announcements)).

(** [companies[announcement.company].append(announcement)], with the key
    created at the end of the [dict] when it is new. *)
Fixpoint dict_append (key : string) (a : Announcement)
    (companies : list (string * list Announcement))
  : list (string * list Announcement) :=
  match companies with
  | [] => [(key, [a])]
  | (k, l) :: t =>
      if String.eqb k key then (k, (l ++ [a])%list) :: t
      else (k, l) :: dict_append key a t
  end.

(** [companies = {}] and the loop that fills it. *)
Definition group_by_company (announcements : list Announcement)
  : list (string * list Announcement) :=
  fold_left (fun companies a => dict_append (company a) a companies)
            announcements [].

(** The text returned for an empty list. The literal has no [f] prefix: its
    last line is returned as written. *)
Definition no_announcements_report : string :=
  "# PEX Competitor Research Report
            
## Summary
No significant announcements found since the last report.

## Companies Monitored
- Uponor (including Georg Fischer)
- Viega

Report generated on: {datetime.now().strftime('%Y-%m-%d %H:%M:%S')}
".

Definition strftime_format : string := "%Y-%m-%d %H:%M:%S".

Definition report_header (now : datetime) (count : nat) : string :=
  "# PEX Competitor Research Report

Report generated on: " ++ strftime now strftime_format ++ "

## Executive Summary
Found " ++ Text.of_Z (Z.of_nat count) ++ " significant announcements from PEX manufacturers.

".

(** The lines added to [report] for one announcement. *)
Definition render_announcement (a : Announcement) : result string :=
  format_1f (importance_score a) >>= fun score =>
  Ok ("### " ++ title a ++ Text.nl
      ++ "**Date:** " ++ date a ++ Text.nl
      ++ "**Category:** " ++ py_str (category a) ++ Text.nl
      ++ "**Importance Score:** " ++ score ++ "/1.0" ++ Text.nl
      ++ "**Source:** " ++ source a ++ Text.nl ++ Text.nl
      ++ "**Summary:** " ++ py_str (summary a) ++ Text.nl ++ Text.nl
      ++ "**Business Implications:** " ++ py_str (implications a)
      ++ Text.nl ++ Text.nl
      ++ "**Source Link:** " ++ url a ++ Text.nl ++ Text.nl
      ++ "---" ++ Text.nl ++ Text.nl).

(** [for announcement in company_announcements: report += ...] *)
Fixpoint render_announcements (l : list Announcement) (report : string)
  : result string :=
  match l with
  | [] => Ok report
  | a :: t =>
      render_announcement a >>= fun block =>
      render_announcements t (report ++ block)
  end.

(** [for company, company_announcements in companies.items(): ...] *)
Fixpoint render_companies (companies : list (string * list Announcement))
    (report : string) : result string :=
  match companies with
  | [] => Ok report
  | (company, company_announcements) :: t =>
      render_announcements company_announcements
        (report ++ Text.nl ++ "## " ++ company ++ Text.nl ++ Text.nl)
      >>= fun report' => render_companies t report'
  end.

(** [generate_report(announcements)]: the report, and the content of the
    caller's list when the call returns. (When the rendering raises, the
    list has been sorted as well; [run], the only caller, does not read it
    then.) *)
Definition generate_report (announcements : list Announcement)
  : M (string * list Announcement) :=
  match announcements with
  | [] => ret (no_announcements_report, announcements)
  | _ :: _ =>
      let announcements := sort_reverse announcements in
      now <- datetime_now ;;
      let report := report_header now (List.length announcements) in
      let companies := group_by_company announcements in
      report' <- lift (render_companies companies report) ;;
      ret (report', announcements)
  end.

Definition save_report (report : string) : M unit :=
  now <- datetime_now ;;
  let timestamp := strftime now "%Y-%m-%d" in
  let filename := reports_dir ++ "/competitor_report_" ++ timestamp ++ ".md" in
  try_except
    (open_write filename ;;
     write_report filename report)
    (fun _ => (* logger.error *) ret tt).

(** *** Run coordinator

    The handler of [run] logs and raises again: an exception leaves [run]
    as it entered the handler. *)
Definition run : M unit :=
  since_date <- get_last_run_timestamp ;;
  announcements <- collect_announcements since_date ;;
  '(report, _) <- generate_report announcements ;;
  save_report report ;;
  update_timestamp.

End Agent.

End CompetitorAgent.

(** ** A reference runtime

    An executable instance of [PyRuntime] for the examples: the proleptic
    Gregorian calendar of [datetime], [isoformat], [strftime] with the
    directives the agent uses, [fromisoformat] on the texts [isoformat]
    writes (the grammar of Python 3.7 to 3.10), and [str()] on text, [None],
    booleans and integers. *)

Module Reference.

Definition is_leap (y : Z) : bool :=
  (y mod 4 =? 0) && (negb (y mod 100 =? 0) || (y mod 400 =? 0)).

Definition month_lengths (y : Z) : list Z :=
  [31; if is_leap y then 29 else 28; 31; 30; 31; 30; 31; 31; 30; 31; 30; 31].

(** Days before January 1st of year [y]. *)
Definition days_before_year (y : Z) : Z :=
  let p := y - 1 in p * 365 + p / 4 - p / 100 + p / 400.

Fixpoint days_before_month (lens : list Z) (m : Z) : Z :=
  match lens with
  | len :: t => if m <=? 1 then 0 else len + days_before_month t (m - 1)
  | [] => 0
  end.

(** Day number of a date, 0 for 0001-01-01. *)
Definition days_of_ymd (y m d : Z) : Z :=
  days_before_year y + days_before_month (month_lengths y) m + (d - 1).

Fixpoint month_scan (lens : list Z) (m n : Z) : Z * Z :=
  match lens with
  | len :: t => if n <? len then (m, n + 1) else month_scan t (m + 1) (n - len)
  | [] => (m, n + 1)
  end.

(** Year, month and day of a day number. *)
Definition ymd_of_days (n : Z) : Z * Z * Z :=
  let n400 := n / 146097 in
  let r400 := n mod 146097 in
  let n100 := r400 / 36524 in
  let r100 := r400 mod 36524 in
  let n4 := r100 / 1461 in
  let r4 := r100 mod 1461 in
  let n1 := r4 / 365 in
  let r1 := r4 mod 365 in
  let y := n400 * 400 + n100 * 100 + n4 * 4 + n1 + 1 in
  if (n1 =? 4) || (n100 =? 4) then (y - 1, 12, 31)
  else let '(m, d) := month_scan (month_lengths y) 1 r1 in (y, m, d).

Record fields : Type := {
  year : Z; month : Z; day : Z;
  hour : Z; minute : Z; second : Z; microsecond : Z
}.

Definition fields_of_wall (t : Z) : fields :=
  let us := t mod 1000000 in
  let s := t / 1000000 in
  let secs := s mod 86400 in
  let '(y, m, d) := ymd_of_days (s / 86400) in
  {| year := y; month := m; day := d;
     hour := secs / 3600; minute := secs / 60 mod 60; second := secs mod 60;
     microsecond := us |}.

Definition wall_of_fields (f : fields) : Z :=
  ((days_of_ymd (year f) (month f) (day f) * 86400
    + hour f * 3600 + minute f * 60 + second f) * 1000000) + microsecond f.

Definition valid_fields (f : fields) : bool :=
  (1 <=? year f) && (year f <=? 9999) && (1 <=? month f) && (month f <=? 12)
  && (1 <=? day f)
  && (day f <=? nth (Z.to_nat (month f - 1)) (month_lengths (year f)) 0)
  && (0 <=? hour f) && (hour f <? 24) && (0 <=? minute f) && (minute f <? 60)
  && (0 <=? second f) && (second f <? 60)
  && (0 <=? microsecond f) && (microsecond f <? 1000000).

Definition date_text (f : fields) : string :=
  Text.zfill 4 (year f) ++ "-" ++ Text.zfill 2 (month f) ++ "-"
  ++ Text.zfill 2 (day f).

Definition time_text (f : fields) : string :=
  Text.zfill 2 (hour f) ++ ":" ++ Text.zfill 2 (minute f) ++ ":"
  ++ Text.zfill 2 (second f).

(** [+HH:MM] of an offset of whole minutes. *)
Definition offset_text (off : Z) : string :=
  let a := Z.abs off / 60000000 in
  (if off <? 0 then "-" else "+")
  ++ Text.zfill 2 (a / 60) ++ ":" ++ Text.zfill 2 (a mod 60).

Definition isoformat (d : datetime) : string :=
  let f := fields_of_wall (wall d) in
  date_text f ++ "T" ++ time_text f
  ++ (if microsecond f =? 0 then "" else "." ++ Text.zfill 6 (microsecond f))
  ++ match utcoffset d with Some off => offset_text off | None => "" end.

Fixpoint strftime_fields (f : fields) (fmt : string) : string :=
  match fmt with
  | String "%" (String c t) =>
      (if Ascii.eqb c "Y" then Text.zfill 4 (year f)
       else if Ascii.eqb c "m" then Text.zfill 2 (month f)
       else if Ascii.eqb c "d" then Text.zfill 2 (day f)
       else if Ascii.eqb c "H" then Text.zfill 2 (hour f)
       else if Ascii.eqb c "M" then Text.zfill 2 (minute f)
       else if Ascii.eqb c "S" then Text.zfill 2 (second f)
       else String "%" (String c EmptyString))
      ++ strftime_fields f t
  | String c t => String c (strftime_fields f t)
  | EmptyString => EmptyString
  end.

Definition strftime (d : datetime) (fmt : string) : string :=
  strftime_fields (fields_of_wall (wall d)) fmt.

(** Exactly [n] decimal digits at the head of [s]. *)
Fixpoint digits (n : nat) (acc : Z) (s : string) : option (Z * string) :=
  match n with
  | O => Some (acc, s)
  | S k =>
      match s with
      | String c t =>
          if Text.is_digit c
          then digits k (10 * acc + Z.of_N (N_of_ascii c - 48)) t
          else None
      | EmptyString => None
      end
  end.

Definition expect (c : ascii) (s : string) : option string :=
  match s with
  | String x t => if Ascii.eqb x c then Some t else None
  | EmptyString => None
  end.

Definition obind {A B : Type} (o : option A) (k : A -> option B) : option B :=
  match o with Some a => k a | None => None end.

(** [HH:MM:SS[.ffffff]] and what follows it. *)
Definition parse_time (s : string) : option (Z * Z * Z * Z * string) :=
  obind (digits 2 0 s) (fun '(hh, s) =>
  obind (expect ":" s) (fun s =>
  obind (digits 2 0 s) (fun '(mm, s) =>
  obind (expect ":" s) (fun s =>
  obind (digits 2 0 s) (fun '(ss, s) =>
  match s with
  | String "." t => obind (digits 6 0 t) (fun '(us, s) => Some (hh, mm, ss, us, s))
  | _ => Some (hh, mm, ss, 0, s)
  end))))).

(** [+HH:MM] or [-HH:MM], or nothing. *)
Definition parse_offset (s : string) : option (option Z) :=
  match s with
  | EmptyString => Some None
  | String c t =>
      if Ascii.eqb c "+" || Ascii.eqb c "-" then
        obind (digits 2 0 t) (fun '(hh, s) =>
        obind (expect ":" s) (fun s =>
        obind (digits 2 0 s) (fun '(mm, s) =>
        match s with
        | EmptyString =>
            if (hh <? 24) && (mm <? 60)
            then Some (Some ((if Ascii.eqb c "-" then -1 else 1)
                             * (hh * 60 + mm) * 60000000))
            else None
        | _ => None
        end)))
      else None
  end.

Definition fromisoformat (s : string) : option datetime :=
  obind (digits 4 0 s) (fun '(y, s) =>
  obind (expect "-" s) (fun s =>
  obind (digits 2 0 s) (fun '(m, s) =>
  obind (expect "-" s) (fun s =>
  obind (digits 2 0 s) (fun '(d, s) =>
  obind (match s with
         | EmptyString => Some (0, 0, 0, 0, EmptyString)
         | String _ t => parse_time t
         end) (fun '(hh, mm, ss, us, s) =>
  obind (parse_offset s) (fun off =>
  let f := {| year := y; month := m; day := d;
              hour := hh; minute := mm; second := ss; microsecond := us |} in
  if valid_fields f
  then Some {| wall := wall_of_fields f; utcoffset := off |}
  else None))))))).

(** [str(v)] for the values the examples render; floats and containers
    are outside this instance and give the empty text. *)
Definition py_str (v : pyval) : string :=
  match v with
  | PStr s => s
  | PNone => "None"
  | PBool b => if b then "True" else "False"
  | PInt z => Text.of_Z z
  | _ => EmptyString
  end.

Definition runtime : PyRuntime :=
  Build_PyRuntime fromisoformat isoformat strftime py_str.

End Reference.

(** * Vocabulary of the statements *)

Import CompetitorAgent.

Section Vocabulary.
Context `{PyRuntime} `{Env}.

(** The reading [datetime.now()] gives at interaction [n]. *)
Definition reading (n : nat) : datetime :=
  {| wall := clock n; utcoffset := None |}.

(** The three-way comparison behind [key_lt]. *)
Definition key_compare (a b : Announcement) : comparison :=
  match String.compare (company a) (company b) with
  | Eq => String.compare (date a) (date b)
  | c => c
  end.

(** [a] may stand before [b] in ascending order: [b] is not less. *)
Definition ascending (a b : Announcement) : Prop := key_lt b a = false.

(** [a] may stand before [b] in descending order: [a] is not less. *)
Definition descending (a b : Announcement) : Prop := key_lt a b = false.

(** [a] and [b] have the same sort key. *)
Definition same_key (a b : Announcement) : bool :=
  String.eqb (company a) (company b) && String.eqb (date a) (date b).

(** [a.company == c] *)
Definition of_company (c : string) (a : Announcement) : bool :=
  String.eqb (company a) c.

(** What the [dict] [companies] holds once the announcements [p] have been
    put in: distinct keys, under each key exactly the announcements of that
    company in the order of [p] (at least one), and a key for every
    announcement. *)
Definition grouped (p : list Announcement)
    (d : list (string * list Announcement)) : Prop :=
  NoDup (map fst d)
  /\ (forall c g, In (c, g) d -> g = filter (of_company c) p /\ g <> [])
  /\ (forall a, In a p -> In (company a) (map fst d)).

(** While a list in descending key order is put into the [dict], the groups
    read in order are the part put in so far: the company of the next
    announcement is that of the last group or a new, smaller one. *)
Definition in_order (p : list Announcement)
    (d : list (string * list Announcement)) : Prop :=
  List.concat (map snd d) = p
  /\ (d = [] \/
      exists d0 k g x,
        d = (d0 ++ [(k, g)])%list
        /\ Forall (fun c => String.compare k c = Lt) (map fst d0)
        /\ In x p /\ company x = k).

(** [c1] stands before [c2] in reverse alphabetical order: [c2 < c1]. *)
Definition company_desc (c1 c2 : string) : Prop := String.compare c2 c1 = Lt.

(** [a] stands before [b] with the later date first: [a.date] is not less. *)
Definition date_desc (a b : Announcement) : Prop :=
  String.ltb (date a) (date b) = false.

(** Concatenation of the pieces of a text. *)
Definition join (pieces : list string) : string :=
  fold_right String.append EmptyString pieces.

(** The text of one company section: its heading, then its blocks. *)
Definition section_text (c : string) (blocks : list string) : string :=
  Text.nl ++ "## " ++ c ++ Text.nl ++ Text.nl ++ join blocks.

(** The score of [a] can be shown with one decimal place. *)
Definition renderable (a : Announcement) : Prop :=
  exists s, format_1f (importance_score a) = Ok s.

(** [blocks] are the rendered blocks of the announcements [g], in order. *)
Definition blocks_of (g : list Announcement) (blocks : list string) : Prop :=
  Forall2 (fun a b => render_announcement a = Ok b) g blocks.

(** [sections] are the texts of the company sections of [companies], in
    order. *)
Definition sections_of (companies : list (string * list Announcement))
    (sections : list string) : Prop :=
  Forall2 (fun cg sec => exists blocks,
               blocks_of (snd cg) blocks /\ sec = section_text (fst cg) blocks)
          companies sections.

(** The URLs of the fetches among some events, in order. *)
Definition urls_fetched (evs : list event) : list string :=
  flat_map (fun ev => match ev with EvGet u _ => [u] | _ => [] end) evs.

Definition is_get (ev : event) : Prop :=
  match ev with EvGet _ _ => True | _ => False end.

(** The elements the extraction works on: those of the first selector that
    matches something. *)
Fixpoint first_match (page : soup) (selectors : list string) : list article :=
  match selectors with
  | [] => []
  | selector :: rest =>
      match page selector with
      | [] => first_match page rest
      | articles => articles
      end
  end.

(** The files and the trace are as they were. *)
Definition unchanged (w w' : world) : Prop :=
  stamp w' = stamp w /\ reports w' = reports w /\ trace w' = trace w.

(** The candidate [c] carries the ISO text of a timestamp that is not
    before [since_date]. *)
Definition fresh (since_date : datetime) (c : Raw.dict) : Prop :=
  exists d, Raw.date c = isoformat d /\ dt_lt d since_date = Ok false.

(** An event that is not the opening of a file for writing. *)
Definition quiet (ev : event) : Prop :=
  match ev with EvWrite _ _ => False | _ => True end.

(** From [w] to [w'] no file was opened for writing and no file changed. *)
Definition frame (w w' : world) : Prop :=
  stamp w' = stamp w /\ reports w' = reports w
  /\ exists evs, trace w' = (trace w ++ evs)%list /\ Forall quiet evs.

(** The content of the file [name] of the reports directory: the entry
    written last. *)
Fixpoint find_report (name : string) (files : list (string * string))
  : option string :=
  match files with
  | [] => None
  | (n, text) :: rest => if String.eqb n name then Some text else find_report name rest
  end.

(** The name of the report file of the day [now] falls on. *)
Definition report_filename (now : datetime) : string :=
  reports_dir ++ "/competitor_report_" ++ strftime now "%Y-%m-%d" ++ ".md".

End Vocabulary.

(** * Sample data and environments *)

Module Sample.

Definition runtime : PyRuntime := Reference.runtime.

(** 2024-06-15T12:00:00 *)
Definition noon : Z :=
  Reference.wall_of_fields
    {| Reference.year := 2024; Reference.month := 6; Reference.day := 15;
       Reference.hour := 12; Reference.minute := 0; Reference.second := 0;
       Reference.microsecond := 0 |}.

(** A clock that advances by one second at every interaction. *)
Definition ticking (n : nat) : Z := noon + Z.of_nat n * 1000000.

(** Every site is unreachable; files open for writing. *)
Definition offline : Env :=
  {| clock := ticking;
     http := fun _ _ => RequestException;
     chat := fun _ _ => None;
     can_write := fun _ _ => true |}.

(** Every site is unreachable; no file opens for writing. *)
Definition read_only : Env :=
  {| clock := ticking;
     http := fun _ _ => RequestException;
     chat := fun _ _ => None;
     can_write := fun _ _ => false |}.


(** A press page with one dated block. *)
Definition launch : article :=
  {| title_elem := Some "  Uponor Launches New PEX-A Fitting Line ";
     link_elem := Some (Some "/press/pex-a");
     date_elem := Some {| datetime_attr := Some "2024-06-08T12:00:00";
                          date_text := "June 8" |};
     article_text := "Uponor Launches New PEX-A Fitting Line ... strategic expansion" |}.

Definition press_page : soup :=
  fun selector => if String.eqb selector ".press-release" then [launch] else [].

(** [/news] answers 404, every other path the press page. *)
Definition press_site : Env :=
  {| clock := ticking;
     http := fun _ u =>
               if String.eqb u "https://www.uponor.com/news"
               then Response 404 (fun _ => [])
               else Response 200 press_page;
     chat := fun _ _ => None;
     can_write := fun _ _ => true |}.

Definition start (f : file) : world :=
  {| steps := 0; stamp := f; reports := []; trace := [] |}.

(** 2024-06-08T12:00:00, seven days before noon. *)
Definition week_ago : datetime :=
  {| wall := noon - timedelta_days 7; utcoffset := None |}.

Definition uponor_launch : Announcement :=
  {| company := "Uponor";
     title := "Uponor Launches New PEX-A Fitting Line";
     date := "2024-06-08T12:00:00";
     url := "https://www.uponor.com/press/pex-a";
     content := "... strategic expansion ...";
     source := "website";
     importance_score := PFloat 0.8;
     category := PStr "Product Launch";
     summary := PStr "A new fitting line.";
     implications := PStr "Broader portfolio." |}.

Definition viega_results : Announcement :=
  {| company := "Viega";
     title := "Viega Reports Annual Results";
     date := "2024-06-10T09:00:00";
     url := "https://www.viega.com/news/results";
     content := "... revenue ...";
     source := "website";
     importance_score := PFloat 0.7;
     category := PStr "Financial Results";
     summary := PStr "Revenue grew.";
     implications := PStr "Room to invest." |}.

Definition uponor_partnership : Announcement :=
  {| company := "Uponor";
     title := "Uponor Signs Distribution Partnership";
     date := "2024-06-12T08:30:00";
     url := "https://www.uponor.com/press/partner";
     content := "... partnership ...";
     source := "website";
     importance_score := PInt 1;
     category := PStr "Partnership";
     summary := PStr "A new distributor.";
     implications := PStr "Wider reach." |}.


Definition new_year_text : string := "2024-01-01T00:00:00
".

Definition three : list Announcement :=
  [uponor_launch; viega_results; uponor_partnership].

(** A clock that advances by 0.4 s at every interaction. *)
Definition quick : Env :=
  {| clock := fun n => noon + Z.of_nat n * 400000;
     http := fun _ _ => RequestException;
     chat := fun _ _ => None;
     can_write := fun _ _ => true |}.

Definition later (n : nat) : world :=
  {| steps := n; stamp := Missing; reports := []; trace := [] |}.

Definition sorted_three : list Announcement :=
  [viega_results; uponor_partnership; uponor_launch].

(** A block without a date element. *)
Definition undated : article :=
  {| title_elem := Some "Viega Opens Training Centre";
     link_elem := None;
     date_elem := None;
     article_text := "Viega Opens Training Centre in Colorado" |}.

Definition news_page : soup :=
  fun selector => if String.eqb selector "article" then [undated] else [].

(** A block dated in UTC, with a trailing Z. *)
Definition zulu : article :=
  {| title_elem := Some "Viega Wins Airport Project";
     link_elem := Some (Some "https://www.viega.com/news/airport");
     date_elem := Some {| datetime_attr := Some "2024-06-14T10:00:00Z";
                          date_text := "June 14" |};
     article_text := "Viega Wins Airport Project" |}.

Definition zulu_page : soup :=
  fun selector => if String.eqb selector ".news-item" then [zulu] else [].

(** A stored timestamp with a UTC offset. *)
Definition aware_text : string := "2024-06-01T00:00:00+00:00".


(** A world in which a report of June 15th has been saved already. *)
Definition reported : world :=
  {| steps := 0; stamp := Missing;
     reports := [("reports/competitor_report_2024-06-15.md", "first")];
     trace := [] |}.


End Sample.

(** * Properties *)

(** ** Formatting *)

Example format_1f_examples :
  map format_1f [PFloat 0.8; PFloat 0.25; PFloat 0.35; PFloat 0.95; PFloat 2.5;
                 PFloat (-0.01); PFloat 1e22; PBool true; PInt 7;
                 PInt 9007199254740993; PInt (10 ^ 400); PNone]
  = [Ok "0.8"; Ok "0.2"; Ok "0.3"; Ok "0.9"; Ok "2.5"; Ok "-0.0";
     Ok "10000000000000000000000.0"; Ok "1.0"; Ok "7.0";
     Ok "9007199254740992.0"; Raise OverflowError; Raise TypeError].
Proof. vm_compute. reflexivity. Qed.

Example format_examples :
  map (StrFormat.format "abc")
      [""; "5"; "<5"; "*^7"; ".2"; "07"; "=5"; ","; "s"; "d"; " "; "#"; "z";
       "."; "5.1s"; "x<"; "<<3"; "05.1"; ".0,"; "2,"]
  = [Ok "abc"; Ok "abc  "; Ok "abc  "; Ok "**abc**"; Ok "ab"; Ok "abc0000";
     Raise ValueError; Raise ValueError; Ok "abc"; Raise ValueError;
     Raise ValueError; Raise ValueError; Raise ValueError; Raise ValueError;
     Ok "a    "; Ok "abc"; Ok "abc"; Ok "a0000"; Raise ValueError;
     Raise ValueError].
Proof. vm_compute. reflexivity. Qed.

(** ** Run-window tracker *)

Section Tracker.
Context `{PyRuntime} `{Env}.

(** The call, case by case. *)
Lemma get_last_run_timestamp_eq (w : world) :
  get_last_run_timestamp w =
  let w1 := step [] w in
  let fallback :=
    (Ok (dt_sub (reading (S (steps w))) (timedelta_days 7)), step [] w1) in
  let max_lookback := dt_sub (reading (steps w)) (timedelta_days 30) in
  match stamp w with
  | Content text =>
      match fromisoformat (Text.strip text) with
      | Some last_run =>
          match dt_lt last_run max_lookback with
          | Ok true => (Ok max_lookback, w1)
          | Ok false => (Ok last_run, w1)
          | Raise _ => fallback
          end
      | None => fallback
      end
  | _ => fallback
  end.
Proof.
  unfold get_last_run_timestamp, try_except, bind, stamp_exists, read_stamp,
    lift, raise, ret, datetime_now, reading.
  destruct w as [n [| |text] rp tr]; cbn -[timedelta_days dt_sub dt_lt];
    try reflexivity.
  destruct (fromisoformat (Text.strip text)) as [last_run|]; try reflexivity.
  destruct (dt_lt last_run _) as [[|]|]; reflexivity.
Qed.

(** The call always returns a datetime: every exception of the body is
    caught. *)
Lemma get_last_run_timestamp_total (w : world) :
  exists d w', get_last_run_timestamp w = (Ok d, w').
Proof.
  rewrite get_last_run_timestamp_eq. cbv zeta.
  destruct (stamp w) as [| |text]; eauto.
  destruct (fromisoformat (Text.strip text)) as [last_run|]; eauto.
  destruct (dt_lt last_run _) as [[|]|]; eauto.
Qed.

Lemma dt_lt_naive (a b : datetime) :
  utcoffset a = None -> utcoffset b = None ->
  dt_lt a b = Ok (wall a <? wall b).
Proof.
  intros Ea Eb. unfold dt_lt, dt_compare. rewrite Ea, Eb. simpl.
  unfold Z.ltb. destruct (wall a ?= wall b); reflexivity.
Qed.


(** C4. When the timestamp file does not exist, when it cannot be read, and
    when its content does not parse as an ISO timestamp, the call does not
    raise: it returns the clock reading it takes at that point (its second
    one) minus 7 days. *)
Theorem get_last_run_timestamp_fails_soft (w : world) :
  stamp w = Missing
  \/ stamp w = Unreadable
  \/ (exists text, stamp w = Content text
                   /\ fromisoformat (Text.strip text) = None) ->
  fst (get_last_run_timestamp w)
  = Ok (dt_sub (reading (S (steps w))) (timedelta_days 7)).
Proof.
  rewrite get_last_run_timestamp_eq. cbv zeta.
  intros [Es | [Es | [text [Es Ep]]]]; rewrite Es; try rewrite Ep; reflexivity.
Qed.

(** X2. A stored timestamp that carries a UTC offset cannot be compared
    with the naive bound: the [TypeError] is caught and the call falls back
    to 7 days before its second clock reading, however old or recent the
    stored timestamp is. *)
Lemma get_last_run_timestamp_aware (w : world) (text : string)
    (last_run : datetime) (off : Z) :
  stamp w = Content text ->
  fromisoformat (Text.strip text) = Some last_run ->
  utcoffset last_run = Some off ->
  fst (get_last_run_timestamp w)
  = Ok (dt_sub (reading (S (steps w))) (timedelta_days 7)).
Proof.
  intros Es Ep Etz.
  rewrite get_last_run_timestamp_eq. cbv zeta. rewrite Es, Ep.
  unfold dt_lt, dt_compare. rewrite Etz. reflexivity.
Qed.

End Tracker.

(** ** The sort key and [list.sort] *)

Section Ordering.

Lemma ascii_compare_refl (c : ascii) : Ascii.compare c c = Eq.
Proof. unfold Ascii.compare. apply N.compare_refl. Qed.

Lemma ascii_compare_lt_trans (a b c : ascii) :
  Ascii.compare a b = Lt -> Ascii.compare b c = Lt -> Ascii.compare a c = Lt.
Proof.
  unfold Ascii.compare. rewrite !N.compare_lt_iff. apply N.lt_trans.
Qed.

Lemma string_compare_refl (s : string) : String.compare s s = Eq.
Proof.
  induction s as [|c s IH]; simpl; [reflexivity|].
  rewrite ascii_compare_refl. exact IH.
Qed.

Lemma string_compare_lt_trans (a b c : string) :
  String.compare a b = Lt -> String.compare b c = Lt -> String.compare a c = Lt.
Proof.
  revert b c. induction a as [|x a IH]; intros [|y b] [|z c]; simpl;
    try discriminate; try reflexivity.
  destruct (Ascii.compare x y) eqn:Exy; try discriminate;
    destruct (Ascii.compare y z) eqn:Eyz; try discriminate; intros Hab Hbc.
  - apply Ascii.compare_eq_iff in Exy, Eyz. subst.
    rewrite ascii_compare_refl. eapply IH; eassumption.
  - apply Ascii.compare_eq_iff in Exy. subst. rewrite Eyz. reflexivity.
  - apply Ascii.compare_eq_iff in Eyz. subst. rewrite Exy. reflexivity.
  - rewrite (ascii_compare_lt_trans _ _ _ Exy Eyz). reflexivity.
Qed.

Lemma key_lt_compare (a b : Announcement) :
  key_lt a b = match key_compare a b with Lt => true | _ => false end.
Proof.
  unfold key_lt, key_compare, String.ltb.
  destruct (String.compare (company a) (company b)); reflexivity.
Qed.

Lemma key_compare_antisym (a b : Announcement) :
  key_compare a b = CompOpp (key_compare b a).
Proof.
  unfold key_compare.
  rewrite (String.compare_antisym (company a) (company b)).
  destruct (String.compare (company b) (company a)); simpl; try reflexivity.
  apply String.compare_antisym.
Qed.

Lemma key_compare_eq (a b : Announcement) :
  key_compare a b = Eq -> company a = company b /\ date a = date b.
Proof.
  unfold key_compare.
  destruct (String.compare (company a) (company b)) eqn:Ec; try discriminate.
  intros Ed. split; apply String.compare_eq_iff; assumption.
Qed.

Lemma key_compare_eq_l (a b c : Announcement) :
  key_compare a b = Eq -> key_compare a c = key_compare b c.
Proof.
  intros E. apply key_compare_eq in E. destruct E as [Ec Ed].
  unfold key_compare. rewrite Ec, Ed. reflexivity.
Qed.

Lemma key_compare_eq_r (a b c : Announcement) :
  key_compare b c = Eq -> key_compare a b = key_compare a c.
Proof.
  intros E. apply key_compare_eq in E. destruct E as [Ec Ed].
  unfold key_compare. rewrite Ec, Ed. reflexivity.
Qed.

Lemma key_compare_lt_trans (a b c : Announcement) :
  key_compare a b = Lt -> key_compare b c = Lt -> key_compare a c = Lt.
Proof.
  unfold key_compare.
  destruct (String.compare (company a) (company b)) eqn:Eab; try discriminate;
    destruct (String.compare (company b) (company c)) eqn:Ebc; try discriminate;
    intros Hab Hbc.
  - apply String.compare_eq_iff in Eab, Ebc. rewrite Eab, Ebc.
    rewrite string_compare_refl.
    eapply string_compare_lt_trans; eassumption.
  - apply String.compare_eq_iff in Eab. rewrite Eab, Ebc. reflexivity.
  - apply String.compare_eq_iff in Ebc. rewrite <- Ebc, Eab. reflexivity.
  - rewrite (string_compare_lt_trans _ _ _ Eab Ebc). reflexivity.
Qed.

(** "Not less" is transitive: the keys are totally ordered. *)
Lemma descending_trans (a b c : Announcement) :
  descending a b -> descending b c -> descending a c.
Proof.
  unfold descending. rewrite !key_lt_compare.
  destruct (key_compare a b) eqn:Eab; try discriminate; intros _;
    destruct (key_compare b c) eqn:Ebc; try discriminate; intros _.
  - rewrite (key_compare_eq_l _ _ _ Eab), Ebc. reflexivity.
  - rewrite (key_compare_eq_l _ _ _ Eab), Ebc. reflexivity.
  - rewrite <- (key_compare_eq_r _ _ _ Ebc), Eab. reflexivity.
  - assert (E : key_compare c a = Lt).
    { apply key_compare_lt_trans with b.
      - rewrite key_compare_antisym, Ebc. reflexivity.
      - rewrite key_compare_antisym, Eab. reflexivity. }
    rewrite key_compare_antisym, E. reflexivity.
Qed.

Lemma key_lt_asym (a b : Announcement) : key_lt a b = true -> key_lt b a = false.
Proof.
  rewrite !key_lt_compare, (key_compare_antisym b a).
  destruct (key_compare a b); simpl; congruence.
Qed.

Lemma insert_perm (x : Announcement) (l : list Announcement) :
  Permutation (x :: l) (insert x l).
Proof.
  induction l as [|y t IH]; simpl; [apply Permutation_refl|].
  destruct (key_lt y x).
  - apply perm_trans with (y :: x :: t); [apply perm_swap|].
    apply perm_skip. exact IH.
  - apply Permutation_refl.
Qed.

Lemma insert_sorted (x : Announcement) (l : list Announcement) :
  StronglySorted ascending l -> StronglySorted ascending (insert x l).
Proof.
  induction 1 as [|y t Ht IH Hy]; simpl.
  - constructor; constructor.
  - destruct (key_lt y x) eqn:E.
    + constructor; [exact IH|].
      apply (Permutation_Forall (insert_perm x t)).
      constructor; [|exact Hy].
      unfold ascending. apply key_lt_asym. exact E.
    + constructor; [constructor; assumption|].
      constructor; [exact E|].
      eapply Forall_impl; [|exact Hy].
      intros z Hz. unfold ascending in *.
      apply (descending_trans z y x); assumption.
Qed.

Lemma sort_ascending_perm (l : list Announcement) :
  Permutation l (sort_ascending l).
Proof.
  induction l as [|x t IH]; simpl; [constructor|].
  apply perm_trans with (x :: sort_ascending t);
    [apply perm_skip; exact IH | apply insert_perm].
Qed.

Lemma sort_ascending_sorted (l : list Announcement) :
  StronglySorted ascending (sort_ascending l).
Proof.
  induction l as [|x t IH]; simpl; [constructor|].
  apply insert_sorted. exact IH.
Qed.

(** A sorted list is left as it is. *)
Lemma sort_ascending_id (l : list Announcement) :
  StronglySorted ascending l -> sort_ascending l = l.
Proof.
  induction 1 as [|x t Ht IH Hx]; simpl; [reflexivity|].
  rewrite IH. destruct t as [|y t']; [reflexivity|].
  simpl. inversion Hx as [|? ? Hxy _]; subst.
  unfold ascending in Hxy. rewrite Hxy. reflexivity.
Qed.

Lemma StronglySorted_snoc {A : Type} (R : A -> A -> Prop) (l : list A) (x : A) :
  StronglySorted R l -> Forall (fun y => R y x) l -> StronglySorted R (l ++ [x]).
Proof.
  induction 1 as [|y t Ht IH Hy]; intros Hx; simpl.
  - constructor; constructor.
  - inversion Hx; subst. constructor; [apply IH; assumption|].
    apply Forall_app. split; [exact Hy | constructor; [assumption|constructor]].
Qed.

Lemma StronglySorted_rev {A : Type} (R : A -> A -> Prop) (l : list A) :
  StronglySorted R l -> StronglySorted (fun a b => R b a) (rev l).
Proof.
  induction 1 as [|x t Ht IH Hx]; simpl; [constructor|].
  apply StronglySorted_snoc; [exact IH|].
  apply Forall_rev. exact Hx.
Qed.

Lemma sort_reverse_perm (l : list Announcement) :
  Permutation l (sort_reverse l).
Proof.
  unfold sort_reverse.
  apply perm_trans with (rev l); [apply Permutation_rev|].
  apply perm_trans with (sort_ascending (rev l));
    [apply sort_ascending_perm | apply Permutation_rev].
Qed.

Lemma sort_reverse_sorted (l : list Announcement) :
  StronglySorted descending (sort_reverse l).
Proof.
  unfold sort_reverse.
  apply (StronglySorted_rev ascending). apply sort_ascending_sorted.
Qed.

Lemma sort_reverse_id (l : list Announcement) :
  StronglySorted descending l -> sort_reverse l = l.
Proof.
  intros Hl. unfold sort_reverse.
  rewrite sort_ascending_id; [apply rev_involutive|].
  apply (StronglySorted_rev descending). exact Hl.
Qed.

Lemma sort_reverse_idempotent (l : list Announcement) :
  sort_reverse (sort_reverse l) = sort_reverse l.
Proof. apply sort_reverse_id, sort_reverse_sorted. Qed.

Lemma same_key_not_lt (a x y : Announcement) :
  same_key a x = true -> same_key a y = true -> key_lt y x = false.
Proof.
  unfold same_key. rewrite !andb_true_iff, !String.eqb_eq.
  intros [Ec Ed] [Ec' Ed']. unfold key_lt, String.ltb.
  rewrite <- Ec, <- Ec', <- Ed, <- Ed', !string_compare_refl. reflexivity.
Qed.

Lemma insert_stable (a x : Announcement) (l : list Announcement) :
  filter (same_key a) (insert x l) = filter (same_key a) (x :: l).
Proof.
  induction l as [|y t IH]; [reflexivity|].
  cbn [insert]. destruct (key_lt y x) eqn:E; [|reflexivity].
  cbn [filter] in *. rewrite IH.
  destruct (same_key a x) eqn:Ex; [|reflexivity].
  destruct (same_key a y) eqn:Ey; [|reflexivity].
  rewrite (same_key_not_lt a x y Ex Ey) in E. discriminate.
Qed.

Lemma sort_ascending_stable (a : Announcement) (l : list Announcement) :
  filter (same_key a) (sort_ascending l) = filter (same_key a) l.
Proof.
  induction l as [|x t IH]; [reflexivity|].
  cbn [sort_ascending]. rewrite insert_stable. cbn [filter]. rewrite IH.
  reflexivity.
Qed.

Lemma filter_rev_eq {A : Type} (f : A -> bool) (l : list A) :
  filter f (rev l) = rev (filter f l).
Proof.
  induction l as [|x t IH]; [reflexivity|].
  cbn [rev filter]. rewrite filter_app, IH. cbn [filter].
  destruct (f x); [reflexivity|apply app_nil_r].
Qed.

(** The sort is stable: announcements with the same key keep their order. *)
Lemma sort_reverse_stable (a : Announcement) (l : list Announcement) :
  filter (same_key a) (sort_reverse l) = filter (same_key a) l.
Proof.
  unfold sort_reverse.
  rewrite filter_rev_eq, sort_ascending_stable, filter_rev_eq.
  apply rev_involutive.
Qed.

End Ordering.

(** ** Grouping by company *)

Section Grouping.

Lemma dict_append_keys_old (k : string) (a : Announcement)
    (d : list (string * list Announcement)) :
  In k (map fst d) -> map fst (dict_append k a d) = map fst d.
Proof.
  induction d as [|[k' l] t IH]; simpl; [tauto|].
  destruct (String.eqb_spec k' k) as [E|N]; simpl; [reflexivity|].
  intros [E|Hin]; [contradiction|]. rewrite IH by assumption. reflexivity.
Qed.

Lemma dict_append_keys_new (k : string) (a : Announcement)
    (d : list (string * list Announcement)) :
  ~ In k (map fst d) -> map fst (dict_append k a d) = (map fst d ++ [k])%list.
Proof.
  induction d as [|[k' l] t IH]; simpl; [reflexivity|].
  intros Hn. destruct (String.eqb_spec k' k) as [E|N]; [tauto|].
  simpl. rewrite IH by tauto. reflexivity.
Qed.

Lemma dict_append_keys_incl (k : string) (a : Announcement)
    (d : list (string * list Announcement)) (x : string) :
  In x (map fst d) \/ x = k -> In x (map fst (dict_append k a d)).
Proof.
  destruct (in_dec string_dec k (map fst d)) as [Hin|Hn].
  - rewrite dict_append_keys_old by assumption. intros [Hx|Hx]; subst; assumption.
  - rewrite dict_append_keys_new by assumption. rewrite in_app_iff. simpl.
    intros [Hx|Hx]; auto.
Qed.

Lemma dict_append_in (k : string) (a : Announcement)
    (d : list (string * list Announcement)) (c : string)
    (g : list Announcement) :
  NoDup (map fst d) ->
  In (c, g) (dict_append k a d) ->
  (c <> k /\ In (c, g) d)
  \/ (c = k /\ exists g0, g = (g0 ++ [a])%list
                          /\ (In (k, g0) d \/ (g0 = [] /\ ~ In k (map fst d)))).
Proof.
  induction d as [|[k' l] t IH]; simpl; intros Hnd Hin.
  - destruct Hin as [E|[]]. inversion E; subst. right. split; [reflexivity|].
    exists []. split; [reflexivity|]. right. tauto.
  - inversion Hnd as [|? ? Hk' Hnd']; subst.
    destruct (String.eqb_spec k' k) as [E|N].
    + subst k'. destruct Hin as [E|Hin].
      * inversion E; subst. right. split; [reflexivity|].
        exists l. split; [reflexivity|]. left. left. reflexivity.
      * left. split; [|right; exact Hin].
        intros ->. apply Hk'. apply (in_map fst) in Hin. exact Hin.
    + destruct Hin as [E|Hin].
      * inversion E; subst. left. split; [exact N|left; reflexivity].
      * destruct (IH Hnd' Hin) as [[Hc Hd]|[Hc [g0 [Hg Hd]]]].
        -- left. split; [exact Hc|right; exact Hd].
        -- right. split; [exact Hc|]. exists g0. split; [exact Hg|].
           destruct Hd as [Hd|[Hg0 Hd]]; [left; right; exact Hd|].
           right. split; [exact Hg0|]. intros [E|Hk]; [exact (N E)|exact (Hd Hk)].
Qed.

Lemma filter_snoc {A : Type} (f : A -> bool) (l : list A) (x : A) :
  filter f (l ++ [x]) = (filter f l ++ if f x then [x] else [])%list.
Proof. rewrite filter_app. simpl. destruct (f x); reflexivity. Qed.

Lemma grouped_step (p : list Announcement)
    (d : list (string * list Announcement)) (a : Announcement) :
  grouped p d -> grouped (p ++ [a]) (dict_append (company a) a d).
Proof.
  intros [Hnd [Hg Hk]]. split; [|split].
  - destruct (in_dec string_dec (company a) (map fst d)) as [Hin|Hn].
    + rewrite dict_append_keys_old by assumption. exact Hnd.
    + rewrite dict_append_keys_new by assumption.
      apply (Permutation_NoDup (Permutation_cons_append _ _)).
      constructor; assumption.
  - intros c g Hin. rewrite filter_snoc. unfold of_company at 2.
    destruct (dict_append_in _ _ _ _ _ Hnd Hin) as [[Hc Hd]|[Hc [g0 [E Hd]]]].
    + destruct (Hg c g Hd) as [E Hne].
      destruct (String.eqb_spec (company a) c) as [Ec|_]; [congruence|].
      rewrite app_nil_r. split; assumption.
    + subst c g. rewrite String.eqb_refl. split.
      * f_equal. destruct Hd as [Hd|[E Hn]]; [apply (Hg _ _ Hd)|].
        subst g0. symmetry. clear - Hk Hn. induction p as [|x p IH]; simpl; [reflexivity|].
        unfold of_company at 1.
        destruct (String.eqb_spec (company x) (company a)) as [E|_].
        -- exfalso. apply Hn. rewrite <- E. apply Hk. left. reflexivity.
        -- apply IH. intros y Hy. apply Hk. right. exact Hy.
      * destruct g0; discriminate.
  - intros x Hx. apply dict_append_keys_incl.
    apply in_app_iff in Hx. destruct Hx as [Hx|[Hx|[]]].
    + left. apply Hk. exact Hx.
    + right. subst x. reflexivity.
Qed.

Lemma grouped_fold (s p : list Announcement)
    (d : list (string * list Announcement)) :
  grouped p d ->
  grouped (p ++ s)
          (fold_left (fun companies a => dict_append (company a) a companies) s d).
Proof.
  revert p d. induction s as [|a s IH]; intros p d Hg; simpl.
  - rewrite app_nil_r. exact Hg.
  - replace (p ++ a :: s)%list with ((p ++ [a]) ++ s)%list
      by (rewrite <- app_assoc; reflexivity).
    apply IH. apply grouped_step. exact Hg.
Qed.

Lemma group_by_company_grouped (l : list Announcement) :
  grouped l (group_by_company l).
Proof.
  apply (grouped_fold l [] []).
  split; [constructor|]. split; [intros c g []|intros a []].
Qed.

Lemma StronglySorted_app_inv {A : Type} (R : A -> A -> Prop) (l1 l2 : list A) :
  StronglySorted R (l1 ++ l2) ->
  forall x y, In x l1 -> In y l2 -> R x y.
Proof.
  induction l1 as [|z l1 IH]; simpl; intros Hs x y Hx Hy; [contradiction|].
  inversion Hs as [|? ? Hs' Hz]; subst. destruct Hx as [E|Hx].
  - subst z. rewrite Forall_forall in Hz. apply Hz. apply in_app_iff. auto.
  - apply IH; assumption.
Qed.

(** On a list in descending key order the keys of the [dict] come out in
    strictly descending order of company name. *)
Lemma keys_sorted_fold (s p : list Announcement)
    (d : list (string * list Announcement)) :
  grouped p d ->
  StronglySorted company_desc (map fst d) ->
  StronglySorted descending (p ++ s) ->
  StronglySorted company_desc
    (map fst (fold_left (fun companies a => dict_append (company a) a companies)
                        s d)).
Proof.
  revert p d. induction s as [|a s IH]; intros p d Hg Hks Hs; simpl;
    [exact Hks|].
  replace (p ++ a :: s)%list with ((p ++ [a]) ++ s)%list in Hs
    by (rewrite <- app_assoc; reflexivity).
  apply (IH (p ++ [a])%list); [apply grouped_step; exact Hg| |exact Hs].
  destruct (in_dec string_dec (company a) (map fst d)) as [Hin|Hn].
  - rewrite dict_append_keys_old by assumption. exact Hks.
  - rewrite dict_append_keys_new by assumption.
    apply StronglySorted_snoc; [exact Hks|].
    apply Forall_forall. intros c Hc.
    apply in_map_iff in Hc. destruct Hc as [[c' g] [E Hcg]]. simpl in E. subst c'.
    destruct Hg as [_ [Hg _]]. destruct (Hg c g Hcg) as [Eg Hne].
    destruct g as [|x g']; [congruence|].
    assert (Hx : In x (filter (of_company c) p)) by (rewrite <- Eg; left; reflexivity).
    apply filter_In in Hx. destruct Hx as [Hx Ec].
    unfold of_company in Ec. apply String.eqb_eq in Ec.
    assert (Hd : descending x a).
    { rewrite <- app_assoc in Hs.
      apply (StronglySorted_app_inv _ _ _ Hs); [exact Hx|left; reflexivity]. }
    unfold descending, key_lt in Hd. rewrite Ec in Hd.
    unfold company_desc. rewrite String.compare_antisym.
    destruct (String.compare c (company a)) eqn:E; try discriminate;
      [|reflexivity].
    apply String.compare_eq_iff in E. exfalso. apply Hn. rewrite <- E.
    apply (in_map fst) in Hcg. exact Hcg.
Qed.

Lemma group_by_company_keys_sorted (l : list Announcement) :
  StronglySorted descending l ->
  StronglySorted company_desc (map fst (group_by_company l)).
Proof.
  intros Hs. apply (keys_sorted_fold l [] []); [|constructor|exact Hs].
  split; [constructor|]. split; [intros c g []|intros a []].
Qed.

(** Within one company, descending key order is descending date order. *)
Lemma filter_company_sorted (c : string) (l : list Announcement) :
  StronglySorted descending l ->
  StronglySorted date_desc (filter (of_company c) l).
Proof.
  induction 1 as [|x t Ht IH Hx]; simpl; [constructor|].
  destruct (of_company c x) eqn:Ex; [|exact IH].
  constructor; [exact IH|].
  apply Forall_forall. intros y Hy. apply filter_In in Hy. destruct Hy as [Hy Ey].
  rewrite Forall_forall in Hx. specialize (Hx y Hy).
  unfold of_company in Ex, Ey. apply String.eqb_eq in Ex, Ey.
  unfold descending, key_lt in Hx. rewrite Ex, Ey, string_compare_refl in Hx.
  exact Hx.
Qed.

End Grouping.

(** ** Report builder *)

Lemma append_assoc (a b c : string) : (a ++ b) ++ c = a ++ (b ++ c).
Proof. induction a as [|x a IH]; simpl; [reflexivity|]. rewrite IH. reflexivity. Qed.

Lemma append_nil_r (a : string) : a ++ "" = a.
Proof. induction a as [|x a IH]; simpl; [reflexivity|]. rewrite IH. reflexivity. Qed.

Section Report.
Context `{PyRuntime} `{Env}.

Lemma render_announcement_total (a : Announcement) :
  renderable a -> exists b, render_announcement a = Ok b.
Proof.
  intros [s E]. unfold render_announcement. rewrite E. simpl. eauto.
Qed.

Lemma render_announcements_total (g : list Announcement) (report : string) :
  Forall renderable g ->
  exists blocks, blocks_of g blocks
                 /\ render_announcements g report = Ok (report ++ join blocks).
Proof.
  intros Hg. revert report. induction Hg as [|a t Ha Ht IH]; intros report.
  - exists []. split; [constructor|]. simpl. rewrite append_nil_r. reflexivity.
  - destruct (render_announcement_total a Ha) as [b Eb].
    destruct (IH (report ++ b)) as [blocks [Hb E]].
    exists (b :: blocks). split; [constructor; assumption|].
    simpl. rewrite Eb. simpl. rewrite E, append_assoc. reflexivity.
Qed.

Lemma render_announcements_inv (g : list Announcement) (report report' : string) :
  render_announcements g report = Ok report' ->
  exists blocks, blocks_of g blocks /\ report' = report ++ join blocks.
Proof.
  revert report. induction g as [|a t IH]; simpl; intros report E.
  - inversion E; subst. exists []. split; [constructor|].
    simpl. rewrite append_nil_r. reflexivity.
  - destruct (render_announcement a) as [b|e] eqn:Eb; simpl in E; [|discriminate].
    destruct (IH _ E) as [blocks [Hb E']].
    exists (b :: blocks). split; [constructor; assumption|].
    simpl. rewrite E', append_assoc. reflexivity.
Qed.

Lemma section_heading_assoc (report c : string) (blocks : list string) :
  (report ++ Text.nl ++ "## " ++ c ++ Text.nl ++ Text.nl) ++ join blocks
  = report ++ section_text c blocks.
Proof.
  unfold section_text. rewrite !append_assoc. reflexivity.
Qed.

Lemma render_companies_total (companies : list (string * list Announcement))
    (report : string) :
  Forall (fun cg => Forall renderable (snd cg)) companies ->
  exists sections, sections_of companies sections
                   /\ render_companies companies report
                      = Ok (report ++ join sections).
Proof.
  intros Hc. revert report. induction Hc as [|[c g] t Hg Ht IH]; intros report.
  - exists []. split; [constructor|]. simpl. rewrite append_nil_r. reflexivity.
  - simpl in Hg.
    destruct (render_announcements_total g
                (report ++ Text.nl ++ "## " ++ c ++ Text.nl ++ Text.nl) Hg)
      as [blocks [Hb E]].
    rewrite section_heading_assoc in E.
    destruct (IH (report ++ section_text c blocks)) as [sections [Hs E']].
    exists (section_text c blocks :: sections). split.
    + constructor; [exists blocks; split; [exact Hb|reflexivity]|exact Hs].
    + cbn [render_companies]. rewrite E. cbn [rbind join fold_right].
      rewrite E', append_assoc. reflexivity.
Qed.

Lemma render_companies_inv (companies : list (string * list Announcement))
    (report report' : string) :
  render_companies companies report = Ok report' ->
  exists sections, sections_of companies sections
                   /\ report' = report ++ join sections.
Proof.
  revert report. induction companies as [|[c g] t IH];
    cbn [render_companies]; intros report E.
  - inversion E; subst. exists []. split; [constructor|].
    simpl. rewrite append_nil_r. reflexivity.
  - destruct (render_announcements g _) as [r|e] eqn:Er; cbn [rbind] in E;
      [|discriminate].
    apply render_announcements_inv in Er. destruct Er as [blocks [Hb Er]].
    rewrite section_heading_assoc in Er. subst r.
    destruct (IH _ E) as [sections [Hs E']].
    exists (section_text c blocks :: sections). split.
    + constructor; [exists blocks; split; [exact Hb|reflexivity]|exact Hs].
    + cbn [join fold_right]. rewrite E', append_assoc. reflexivity.
Qed.

Lemma sort_reverse_length (l : list Announcement) :
  List.length (sort_reverse l) = List.length l.
Proof. symmetry. apply Permutation_length, sort_reverse_perm. Qed.

(** The call on a non-empty list: the list is sorted, the clock read once,
    and the sections rendered. *)
Lemma generate_report_eq (l : list Announcement) (w : world) :
  l <> [] ->
  generate_report l w =
  match render_companies (group_by_company (sort_reverse l))
          (report_header (reading (steps w)) (List.length l)) with
  | Ok report => (Ok (report, sort_reverse l), step [] w)
  | Raise e => (Raise e, step [] w)
  end.
Proof.
  intros Hne. destruct l as [|a t]; [congruence|].
  unfold generate_report, bind, lift, ret, datetime_now, reading. cbv zeta.
  rewrite sort_reverse_length.
  destruct (render_companies _ _); reflexivity.
Qed.

Lemma groups_renderable (l : list Announcement) :
  Forall renderable l ->
  Forall (fun cg => Forall renderable (snd cg))
         (group_by_company (sort_reverse l)).
Proof.
  intros Hl. apply Forall_forall. intros [c g] Hcg. simpl.
  destruct (group_by_company_grouped (sort_reverse l)) as [_ [Hg _]].
  destruct (Hg c g Hcg) as [E _]. subst g.
  apply Forall_forall. intros a Ha. apply filter_In in Ha. destruct Ha as [Ha _].
  rewrite Forall_forall in Hl. apply Hl.
  apply (Permutation_in _ (Permutation_sym (sort_reverse_perm l))). exact Ha.
Qed.

(** The call returns when every score can be shown. *)
Lemma generate_report_total (l : list Announcement) (w : world) :
  l <> [] ->
  Forall renderable l ->
  exists sections,
    sections_of (group_by_company (sort_reverse l)) sections
    /\ generate_report l w
       = (Ok (report_header (reading (steps w)) (List.length l) ++ join sections,
              sort_reverse l), step [] w).
Proof.
  intros Hne Hr.
  destruct (render_companies_total (group_by_company (sort_reverse l))
              (report_header (reading (steps w)) (List.length l))
              (groups_renderable l Hr)) as [sections [Hs E]].
  exists sections. split; [exact Hs|].
  rewrite generate_report_eq by exact Hne. rewrite E. reflexivity.
Qed.

Lemma sort_reverse_nonempty (l : list Announcement) :
  l <> [] -> sort_reverse l <> [].
Proof.
  intros Hne E. apply (f_equal (@List.length _)) in E.
  rewrite sort_reverse_length in E. destruct l; [congruence|discriminate].
Qed.

End Report.

Section ReportBuilder.
Context `{PyRuntime} `{Env}.

(** C7. For a non-empty list of announcements whose scores can be shown,
    the call returns the header followed by one section per company of the
    sorted list, in the order of the [dict]: every section holds exactly the
    announcements of its own company (all of them, and no other), every
    announcement is in the section of its company, the company names of
    successive sections are strictly descending (reverse alphabetical, so no
    company has two sections), and within a section the announcements stand
    in descending order of their [date] field, the latest first. *)
Theorem generate_report_sections (l : list Announcement) (w : world) :
  l <> [] ->
  Forall renderable l ->
  let sorted := sort_reverse l in
  let companies := group_by_company sorted in
  exists sections,
    generate_report l w
    = (Ok (report_header (reading (steps w)) (List.length l) ++ join sections,
           sorted), step [] w)
    /\ sections_of companies sections
    /\ (forall c g, In (c, g) companies ->
          g = filter (of_company c) sorted /\ g <> []
          /\ forall a, In a g <-> In a l /\ company a = c)
    /\ (forall a, In a l -> exists g, In (company a, g) companies /\ In a g)
    /\ StronglySorted company_desc (map fst companies)
    /\ (forall c g, In (c, g) companies -> StronglySorted date_desc g).
Proof.
  intros Hne Hr sorted companies.
  destruct (group_by_company_grouped sorted) as [Hnd [Hg Hk]].
  fold companies in Hnd, Hg, Hk.
  assert (Hmem : forall c g a, In (c, g) companies ->
                   (In a g <-> In a l /\ company a = c)).
  { intros c g a Hcg. destruct (Hg c g Hcg) as [E _]. subst g.
    rewrite filter_In. unfold of_company. rewrite String.eqb_eq.
    split; intros [Ha Ec]; split; try exact Ec.
    - apply (Permutation_in _ (Permutation_sym (sort_reverse_perm l))). exact Ha.
    - apply (Permutation_in _ (sort_reverse_perm l)). exact Ha. }
  destruct (generate_report_total l w Hne Hr) as [sections [Hs E]].
  exists sections. split; [exact E|split; [exact Hs|split; [|split; [|split]]]].
  - intros c g Hcg. destruct (Hg c g Hcg) as [E1 E2].
    split; [exact E1|split; [exact E2|]]. intros a. apply Hmem. exact Hcg.
  - intros a Ha.
    assert (Hs' : In a sorted)
      by (apply (Permutation_in _ (sort_reverse_perm l)); exact Ha).
    specialize (Hk a Hs'). apply in_map_iff in Hk.
    destruct Hk as [[c g] [Ec Hcg]]. simpl in Ec. subst c.
    exists g. split; [exact Hcg|]. apply (Hmem _ _ a Hcg). split; [exact Ha|reflexivity].
  - apply group_by_company_keys_sorted, sort_reverse_sorted.
  - intros c g Hcg. destruct (Hg c g Hcg) as [E1 _]. subst g.
    apply filter_company_sorted, sort_reverse_sorted.
Qed.

(** C8. On the empty list the call returns the fixed text without reading
    the clock. The text names Uponor and Viega. Its last line is the
    placeholder of the source, braces included, and the text holds no digit
    at all: it carries no generation timestamp. *)
Theorem generate_report_empty (w : world) :
  generate_report [] w = (Ok (no_announcements_report, []), w)
  /\ Text.contains "Uponor" no_announcements_report = true
  /\ Text.contains "Viega" no_announcements_report = true
  /\ Text.contains "Report generated on: {datetime.now().strftime("
                   no_announcements_report = true
  /\ Text.has_digit no_announcements_report = false.
Proof.
  split; [reflexivity|]. repeat split; vm_compute; reflexivity.
Qed.

(** C9. Two calls on the same announcements return the same text when they
    read the same generation time (to the second, as the header shows it);
    this holds for the second call on the list as the first call left it,
    and on the list as it was. *)
Theorem generate_report_repeatable (l l1 : list Announcement) (w1 w1' w2 : world)
    (report : string) :
  generate_report l w1 = (Ok (report, l1), w1') ->
  strftime (reading (steps w2)) strftime_format
  = strftime (reading (steps w1)) strftime_format ->
  fst (generate_report l1 w2) = Ok (report, l1)
  /\ fst (generate_report l w2) = Ok (report, l1).
Proof.
  intros E Hc. destruct l as [|a t].
  - inversion E; subst. split; reflexivity.
  - assert (Hne : a :: t <> []) by discriminate.
    rewrite (generate_report_eq _ _ Hne) in E.
    destruct (render_companies _ _) as [r|e] eqn:Er in E; inversion E; subst.
    clear E.
    assert (Eh : forall n, report_header (reading (steps w2)) n
                           = report_header (reading (steps w1)) n).
    { intros n. unfold report_header. rewrite Hc. reflexivity. }
    split.
    + rewrite (generate_report_eq _ _ (sort_reverse_nonempty _ Hne)).
      rewrite sort_reverse_idempotent, sort_reverse_length, Eh, Er. reflexivity.
    + rewrite (generate_report_eq _ _ Hne), Eh, Er. reflexivity.
Qed.

(** C10. When the call on a non-empty list returns, the caller's list
    holds the same announcements (a permutation) in descending order of the
    key (company, date), equal keys in their former order; it is the list
    it was exactly when that list was already in this order. The call
    returns whenever the scores can be shown. *)
Theorem generate_report_sorts_in_place (l : list Announcement) (w : world) :
  l <> [] ->
  (forall report l' w',
      generate_report l w = (Ok (report, l'), w') ->
      l' = sort_reverse l
      /\ Permutation l l'
      /\ StronglySorted descending l'
      /\ (forall a, filter (same_key a) l' = filter (same_key a) l)
      /\ (l' = l <-> StronglySorted descending l))
  /\ (Forall renderable l ->
      exists report, generate_report l w = (Ok (report, sort_reverse l), step [] w)).
Proof.
  intros Hne. split.
  - intros report l' w' E.
    rewrite (generate_report_eq _ _ Hne) in E.
    destruct (render_companies _ _) as [r|e]; inversion E; subst.
    split; [reflexivity|]. split; [apply sort_reverse_perm|].
    split; [apply sort_reverse_sorted|].
    split; [intros a; apply sort_reverse_stable|]. split.
    + intros Ei. rewrite <- Ei. apply sort_reverse_sorted.
    + apply sort_reverse_id.
  - intros Hr. destruct (generate_report_total l w Hne Hr) as [sections [_ E]].
    eexists. exact E.
Qed.

End ReportBuilder.

(** ** Candidate extractor *)

Lemma unchanged_refl (w : world) : unchanged w w.
Proof. repeat split. Qed.

Lemma unchanged_step (w w' : world) : unchanged w w' -> unchanged w (step [] w').
Proof.
  intros [Hs [Hr Ht]]. repeat split; simpl; try assumption.
  rewrite app_nil_r. exact Ht.
Qed.

Lemma unchanged_after_step (w w' : world) :
  unchanged (step [] w) w' -> unchanged w w'.
Proof.
  intros [Hs [Hr Ht]]. repeat split; try assumption.
  rewrite Ht. simpl. apply app_nil_r.
Qed.

Lemma dt_ge_lt (a b : datetime) : dt_ge a b = Ok true <-> dt_lt a b = Ok false.
Proof.
  unfold dt_ge, dt_lt. destruct (dt_compare a b) as [[| |]|e]; simpl;
    split; intros E; try reflexivity; discriminate.
Qed.

Section Extractor.
Context `{PyRuntime} `{Env}.

Variables (url news_url company : string) (since_date : datetime).

Lemma process_article_eq (art : article) (acc : list Raw.dict) (w : world) :
  process_article url news_url company since_date art acc w =
  match title_elem art with
  | None => (Ok acc, w)
  | Some t =>
      let d := resolve_date art (reading (steps w)) in
      (Ok match dt_ge d since_date with
          | Ok true => (acc ++ [candidate url news_url company art t d])%list
          | _ => acc
          end, step [] w)
  end.
Proof.
  unfold process_article. destruct (title_elem art) as [t|]; [|reflexivity].
  unfold bind, datetime_now, ret, reading. cbv zeta.
  destruct (dt_ge _ _) as [[|]|e]; reflexivity.
Qed.

(** The loop over the blocks returns, only adds candidates that are not
    before [since_date], keeps every block that has a title and whose date
    is not before [since_date], and touches neither files nor trace. *)
Lemma articles_loop_spec (articles : list article) (acc : list Raw.dict)
    (w : world) :
  exists extra w',
    articles_loop url news_url company since_date articles acc w
    = (Ok (acc ++ extra)%list, w')
    /\ Forall (fresh since_date) extra
    /\ unchanged w w'
    /\ (forall art t,
          In art articles -> title_elem art = Some t ->
          (forall n, dt_lt (resolve_date art (reading n)) since_date = Ok false) ->
          exists n,
            In (candidate url news_url company art t
                          (resolve_date art (reading n))) extra).
Proof.
  revert acc w. induction articles as [|art rest IH]; intros acc w.
  - exists [], w. rewrite app_nil_r. split; [reflexivity|].
    split; [constructor|]. split; [apply unchanged_refl|]. intros ? ? [].
  - cbn [articles_loop]. unfold bind at 1. rewrite process_article_eq.
    destruct (title_elem art) as [t|] eqn:Et.
    + cbv zeta.
      set (d := resolve_date art (reading (steps w))).
      destruct (dt_ge d since_date) as [[|]|e] eqn:Ed.
      * destruct (IH (acc ++ [candidate url news_url company art t d])%list
                     (step [] w)) as [extra [w' [E [Hf [Hu Hk]]]]].
        exists (candidate url news_url company art t d :: extra), w'.
        rewrite E, <- app_assoc. split; [reflexivity|].
        split; [constructor; [exists d; split; [reflexivity|]; apply dt_ge_lt; exact Ed|exact Hf]|].
        split; [apply unchanged_after_step; exact Hu|].
        intros art' t' [Ea|Hin] Et' Hd.
        -- subst art'. rewrite Et in Et'. inversion Et'; subst t'.
           exists (steps w). left. reflexivity.
        -- destruct (Hk art' t' Hin Et' Hd) as [n Hn]. exists n. right. exact Hn.
      * destruct (IH acc (step [] w)) as [extra [w' [E [Hf [Hu Hk]]]]].
        exists extra, w'. rewrite E. split; [reflexivity|]. split; [exact Hf|].
        split; [apply unchanged_after_step; exact Hu|].
        intros art' t' [Ea|Hin] Et' Hd.
        -- subst art'. specialize (Hd (steps w)). fold d in Hd.
           apply dt_ge_lt in Hd. congruence.
        -- exact (Hk art' t' Hin Et' Hd).
      * destruct (IH acc (step [] w)) as [extra [w' [E [Hf [Hu Hk]]]]].
        exists extra, w'. rewrite E. split; [reflexivity|]. split; [exact Hf|].
        split; [apply unchanged_after_step; exact Hu|].
        intros art' t' [Ea|Hin] Et' Hd.
        -- subst art'. specialize (Hd (steps w)). fold d in Hd.
           apply dt_ge_lt in Hd. congruence.
        -- exact (Hk art' t' Hin Et' Hd).
    + destruct (IH acc w) as [extra [w' [E [Hf [Hu Hk]]]]].
      exists extra, w'. rewrite E. split; [reflexivity|]. split; [exact Hf|].
      split; [exact Hu|].
      intros art' t' [Ea|Hin] Et' Hd; [subst art'; congruence|].
      exact (Hk art' t' Hin Et' Hd).
Qed.

(** The loop over the selectors is the loop over the blocks of the first
    selector that matches. *)
Lemma selectors_loop_eq (page : soup) (selectors : list string)
    (acc : list Raw.dict) (w : world) :
  selectors_loop url news_url company since_date page selectors acc w
  = articles_loop url news_url company since_date
                  (first_match page selectors) acc w.
Proof.
  revert acc w. induction selectors as [|selector rest IH]; intros acc w;
    [reflexivity|].
  cbn [selectors_loop first_match].
  destruct (page selector) as [|art arts].
  - cbn [articles_loop]. unfold bind, ret. apply IH.
  - unfold bind, ret.
    destruct (articles_loop _ _ _ _ (art :: arts) acc w) as [[r|e] w'];
      reflexivity.
Qed.

End Extractor.

Section PathTrial.
Context `{PyRuntime} `{Env}.
Variables (url company : string) (since_date : datetime).

Lemma visit_path_eq (path : string) (acc : list Raw.dict) (w : world) :
  visit_path url company since_date path acc w =
  let news_url := url ++ path in
  let r := http (steps w) news_url in
  let w1 := step [EvGet news_url r] w in
  match r with
  | Response z page =>
      if z =? 200 then
        match selectors_loop url news_url company since_date page
                article_selectors acc w1 with
        | (Ok acc', w') =>
            (Ok (match acc' with [] => Continue | _ :: _ => Break end, acc'), w')
        | (Raise e, w') => (Raise e, w')
        end
      else (Ok (Continue, acc), w1)
  | RequestException => (Ok (Continue, acc), w1)
  | OtherException => (Ok (Propagate, acc), w1)
  end.
Proof.
  unfold visit_path, bind, requests_get, ret. cbv zeta.
  destruct (http (steps w) (url ++ path)) as [z page| |]; try reflexivity.
  destruct (z =? 200); [|reflexivity].
  destruct (selectors_loop _ _ _ _ _ _ _ _) as [[[|c acc']|e] w']; reflexivity.
Qed.

(** The trial of the paths: it returns; it only fetches, and fetches the
    first [n] paths in order; it ends before the last path only with
    candidates or on an exception that is not a [RequestException]; the
    candidates it returns are those of the page fetched last, and none is
    before [since_date]. *)
Lemma paths_loop_spec (paths : list string) (w : world) :
  exists res w' n evs,
    paths_loop url company since_date paths [] w = (Ok res, w')
    /\ trace w' = (trace w ++ evs)%list
    /\ stamp w' = stamp w /\ reports w' = reports w
    /\ Forall is_get evs
    /\ (n <= List.length paths)%nat
    /\ (paths <> [] -> (1 <= n)%nat)
    /\ urls_fetched evs = map (String.append url) (firstn n paths)
    /\ ((n < List.length paths)%nat ->
        res <> [] \/ exists evs0 u, evs = (evs0 ++ [EvGet u OtherException])%list)
    /\ (res <> [] ->
        exists evs0 u page w0,
          evs = (evs0 ++ [EvGet u (Response 200 page)])%list
          /\ trace w0 = (trace w ++ evs)%list
          /\ selectors_loop url u company since_date page article_selectors [] w0
             = (Ok res, w'))
    /\ Forall (fresh since_date) res.
Proof.
  revert w. induction paths as [|path rest IH]; intros w.
  - exists [], w, O, []. cbn [paths_loop]. unfold ret.
    rewrite app_nil_r. repeat split; try constructor; try congruence.
    simpl in *. lia.
  - cbn [paths_loop]. unfold bind at 1. rewrite visit_path_eq. cbv zeta.
    set (news_url := url ++ path).
    set (r := http (steps w) news_url).
    set (w1 := step [EvGet news_url r] w).
    assert (Hnext : forall w2, unchanged w1 w2 ->
      exists res w' n evs,
        paths_loop url company since_date rest [] w2 = (Ok res, w')
        /\ trace w' = (trace w ++ evs)%list
        /\ stamp w' = stamp w /\ reports w' = reports w
        /\ Forall is_get evs
        /\ (n <= List.length (path :: rest))%nat
        /\ (path :: rest <> [] -> (1 <= n)%nat)
        /\ urls_fetched evs
           = map (String.append url) (firstn n (path :: rest))
        /\ ((n < List.length (path :: rest))%nat ->
            res <> []
            \/ exists evs0 u, evs = (evs0 ++ [EvGet u OtherException])%list)
        /\ (res <> [] ->
            exists evs0 u page w0,
              evs = (evs0 ++ [EvGet u (Response 200 page)])%list
              /\ trace w0 = (trace w ++ evs)%list
              /\ selectors_loop url u company since_date page
                                article_selectors [] w0 = (Ok res, w'))
        /\ Forall (fresh since_date) res).
    { intros w2 [Hs [Hr Ht]].
      destruct (IH w2) as [res [w' [n [evs [E [Et [Es [Er [Hg [Hn [_ [Hu [Hstop [Hlast Hf]]]]]]]]]]]]]].
      exists res, w', (S n), (EvGet news_url r :: evs).
      split; [exact E|]. split.
      { rewrite Et, Ht. unfold w1. simpl. rewrite <- app_assoc. reflexivity. }
      split; [rewrite Es, Hs; reflexivity|].
      split; [rewrite Er, Hr; reflexivity|].
      split; [constructor; [exact I|exact Hg]|].
      split; [simpl; lia|]. split; [intros _; lia|].
      split; [simpl; rewrite Hu; reflexivity|].
      split.
      { intros Hlt. simpl in Hlt. destruct (Hstop ltac:(lia)) as [Hne|[evs0 [u Ee]]].
        - left. exact Hne.
        - right. exists (EvGet news_url r :: evs0), u. rewrite Ee. reflexivity. }
      split; [|exact Hf].
      intros Hne. destruct (Hlast Hne) as [evs0 [u [page [w0 [Ee [Tw El]]]]]].
      exists (EvGet news_url r :: evs0), u, page, w0.
      split; [rewrite Ee; reflexivity|]. split; [|exact El].
      rewrite Tw, Ht. unfold w1. simpl. rewrite <- app_assoc. reflexivity. }
    assert (Hw1 : unchanged w1 w1) by apply unchanged_refl.
    destruct r as [z page| |] eqn:Er.
    + destruct (z =? 200) eqn:Ez.
      * rewrite selectors_loop_eq.
        destruct (articles_loop_spec url news_url company since_date
                    (first_match page article_selectors) [] w1)
          as [extra [w2 [E [Hf [Hu _]]]]].
        rewrite E. cbn [app].
        destruct extra as [|c extra'].
        -- apply Hnext. exact Hu.
        -- apply Z.eqb_eq in Ez. subst z.
           exists (c :: extra'), w2, 1%nat, [EvGet news_url (Response 200 page)].
           destruct Hu as [Hs [Hr Ht]].
           split; [reflexivity|]. split; [rewrite Ht; reflexivity|].
           split; [rewrite Hs; reflexivity|]. split; [rewrite Hr; reflexivity|].
           split; [repeat constructor|]. split; [simpl; lia|].
           split; [intros _; lia|]. split; [reflexivity|].
           split; [intros _; left; discriminate|].
           split; [|exact Hf].
           intros _. exists [], news_url, page, w1.
           split; [reflexivity|]. split; [reflexivity|].
           rewrite selectors_loop_eq. exact E.
      * apply Hnext. exact Hw1.
    + apply Hnext. exact Hw1.
    + exists [], w1, 1%nat, [EvGet news_url OtherException].
      split; [reflexivity|]. split; [reflexivity|].
      split; [reflexivity|]. split; [reflexivity|].
      split; [repeat constructor|]. split; [simpl; lia|].
      split; [intros _; lia|]. split; [reflexivity|].
      split; [intros _; right; exists [], news_url; reflexivity|].
      split; [congruence|constructor].
Qed.

(** C5. The candidates a site scrape returns all carry the ISO text of a
    timestamp that is not before [since_date]; and the extraction from a
    page keeps every block of the first matching selector that has a title
    and whose timestamp is not before [since_date], in particular when it is
    equal to [since_date]. *)
Theorem scrape_website_news_cutoff (w : world) :
  (exists res w',
      scrape_website_news url company since_date w = (Ok res, w')
      /\ Forall (fresh since_date) res)
  /\ (forall news_url page acc w0 art t,
        In art (first_match page article_selectors) ->
        title_elem art = Some t ->
        (forall n, dt_lt (resolve_date art (reading n)) since_date = Ok false) ->
        exists res w' n,
          selectors_loop url news_url company since_date page
                         article_selectors acc w0 = (Ok res, w')
          /\ In (candidate url news_url company art t
                           (resolve_date art (reading n))) res)
  /\ (forall news_url page acc w0 art t,
        In art (first_match page article_selectors) ->
        title_elem art = Some t ->
        (forall n, resolve_date art (reading n) = since_date) ->
        exists res w',
          selectors_loop url news_url company since_date page
                         article_selectors acc w0 = (Ok res, w')
          /\ In (candidate url news_url company art t since_date) res).
Proof.
  assert (Hkeep : forall news_url page acc w0 art t,
        In art (first_match page article_selectors) ->
        title_elem art = Some t ->
        (forall n, dt_lt (resolve_date art (reading n)) since_date = Ok false) ->
        exists res w' n,
          selectors_loop url news_url company since_date page
                         article_selectors acc w0 = (Ok res, w')
          /\ In (candidate url news_url company art t
                           (resolve_date art (reading n))) res).
  { intros news_url page acc w0 art t Hin Et Hd.
    rewrite selectors_loop_eq.
    destruct (articles_loop_spec url news_url company since_date
                (first_match page article_selectors) acc w0)
      as [extra [w' [E [_ [_ Hk]]]]].
    destruct (Hk art t Hin Et Hd) as [n Hn].
    exists (acc ++ extra)%list, w', n. split; [exact E|].
    apply in_app_iff. right. exact Hn. }
  split; [|split].
  - destruct (paths_loop_spec news_paths w)
      as [res [w' [n [evs [E [_ [_ [_ [_ [_ [_ [_ [_ [_ Hf]]]]]]]]]]]]]].
    exists res, w'. split; [exact E|exact Hf].
  - exact Hkeep.
  - intros news_url page acc w0 art t Hin Et Hd.
    assert (Hlt : forall n,
               dt_lt (resolve_date art (reading n)) since_date = Ok false).
    { intros n. rewrite Hd. unfold dt_lt, dt_compare.
      destruct (utcoffset since_date); simpl; rewrite Z.compare_refl; reflexivity. }
    destruct (Hkeep news_url page acc w0 art t Hin Et Hlt) as [res [w' [n [E Hn]]]].
    exists res, w'. split; [exact E|]. rewrite Hd in Hn. exact Hn.
Qed.


End PathTrial.

(** ** Classifier step *)

Section Classifier.
Context `{PyRuntime} `{Env}.

(** The text between the colon and the closing brace of the JSON example
    is not a format specification. *)
Lemma json_example_spec_rejected :
  StrFormat.format "importance_score" json_example_spec = Raise ValueError.
Proof. vm_compute. reflexivity. Qed.

Lemma build_prompt_raises (announcement : Raw.dict) :
  build_prompt announcement = Raise ValueError.
Proof. unfold build_prompt. rewrite json_example_spec_rejected. reflexivity. Qed.

Lemma analyze_with_openai_eq (announcement : Raw.dict) (w : world) :
  analyze_with_openai announcement w = (Raise ValueError, w).
Proof.
  unfold analyze_with_openai, bind, lift.
  rewrite build_prompt_raises. reflexivity.
Qed.

(** C1. For every candidate, in every state and whatever the classifier
    would answer, [analyze_with_openai] raises [ValueError] while it builds
    the prompt, before the [try] and before the classifier is called: it
    returns neither an [Announcement] nor [None], no request is made, and
    the world is as it was. *)
Theorem analyze_with_openai_raises (announcement : Raw.dict) (w : world) :
  analyze_with_openai announcement w = (Raise ValueError, w)
  /\ (forall a, fst (analyze_with_openai announcement w) <> Ok (Some a))
  /\ fst (analyze_with_openai announcement w) <> Ok None.
Proof.
  rewrite analyze_with_openai_eq. repeat split; simpl; discriminate.
Qed.

(** The decision itself, on an answer that has the five fields with a
    boolean flag and a float score: an [Announcement] is built exactly when
    the flag is true and the score is greater than 0.3. *)
Lemma decide_complete_answer (announcement : Raw.dict)
    (d : list (string * pyval)) (flag : bool) (score : float)
    (cat summ impl : pyval) :
  lookup "should_include" d = Some (PBool flag) ->
  lookup "importance_score" d = Some (PFloat score) ->
  lookup "category" d = Some cat ->
  lookup "summary" d = Some summ ->
  lookup "implications" d = Some impl ->
  decide announcement (PDict d)
  = Ok (if flag && PrimFloat.ltb 0.3 score
        then Some {| company := Raw.company announcement;
                     title := Raw.title announcement;
                     date := Raw.date announcement;
                     url := Raw.url announcement;
                     content := Raw.content announcement;
                     source := Raw.source announcement;
                     importance_score := PFloat score;
                     category := cat;
                     summary := summ;
                     implications := impl |}
        else None).
Proof.
  intros Ef Es Ec Eu Ei. unfold decide, py_get, py_getitem, rbind.
  rewrite Ef, Es, Ec, Eu, Ei. cbn [truthy py_gt_float].
  destruct flag; [|reflexivity]. cbn [andb].
  destruct (PrimFloat.ltb 0.3 score); reflexivity.
Qed.

(** X9. The decision in general: an [Announcement] is built exactly for
    an object whose flag is truthy, whose score is a number greater than
    0.3, and which has the three text fields. *)
Lemma decide_accepts_iff (announcement : Raw.dict) (res : pyval) :
  (exists a, decide announcement res = Ok (Some a))
  <-> exists d flag score cat summ impl,
        res = PDict d
        /\ lookup "should_include" d = Some flag /\ truthy flag = true
        /\ lookup "importance_score" d = Some score
        /\ py_gt_float score 0.3 = Ok true
        /\ lookup "category" d = Some cat
        /\ lookup "summary" d = Some summ
        /\ lookup "implications" d = Some impl.
Proof.
  split.
  - intros [a E]. destruct res as [| | | | | |d]; try discriminate E.
    exists d. unfold decide, py_get, py_getitem, rbind in E.
    destruct (lookup "should_include" d) as [flag|] eqn:Ef;
      [|discriminate E].
    destruct (truthy flag) eqn:Et; [|discriminate E].
    destruct (lookup "importance_score" d) as [score|] eqn:Es;
      [|vm_compute in E; discriminate E].
    destruct (py_gt_float score 0.3) as [[|]|e] eqn:Eg; try discriminate E.
    destruct (lookup "category" d) as [cat|]; [|discriminate E].
    destruct (lookup "summary" d) as [summ|]; [|discriminate E].
    destruct (lookup "implications" d) as [impl|]; [|discriminate E].
    exists flag, score, cat, summ, impl.
    repeat split; try reflexivity; assumption.
  - intros [d [flag [score [cat [summ [impl [-> [Ef [Et [Es [Eg [Ec [Eu Ei]]]]]]]]]]]]].
    unfold decide, py_get, py_getitem, rbind.
    rewrite Ef, Et, Es, Eg, Ec, Eu, Ei. eexists. reflexivity.
Qed.

(** A score of exactly 0.3 is not greater than 0.3; an answer without the
    flag is not accepted. *)
Lemma decide_boundary (announcement : Raw.dict) :
  py_gt_float (PFloat 0.3) 0.3 = Ok false
  /\ decide announcement (PDict [("importance_score", PFloat 0.9)]) = Ok None.
Proof. split; vm_compute; reflexivity. Qed.

(** With a candidate to analyze, the loop raises at the first one. *)
Lemma analyze_loop_eq (raw : list Raw.dict) (acc : list Announcement)
    (w : world) :
  analyze_loop raw acc w =
  match raw with
  | [] => (Ok acc, w)
  | _ :: _ => (Raise ValueError, w)
  end.
Proof.
  destruct raw as [|r rest]; [reflexivity|].
  cbn [analyze_loop]. unfold bind. rewrite analyze_with_openai_eq.
  reflexivity.
Qed.

End Classifier.

(** ** Run coordinator *)

Lemma frame_refl (w : world) : frame w w.
Proof.
  repeat split. exists []. rewrite app_nil_r. split; [reflexivity|constructor].
Qed.

Lemma frame_trans (w1 w2 w3 : world) : frame w1 w2 -> frame w2 w3 -> frame w1 w3.
Proof.
  intros [Hs1 [Hr1 [e1 [Ht1 Hq1]]]] [Hs2 [Hr2 [e2 [Ht2 Hq2]]]].
  split; [congruence|]. split; [congruence|].
  exists (e1 ++ e2)%list. split.
  - rewrite Ht2, Ht1, app_assoc. reflexivity.
  - apply Forall_app. split; assumption.
Qed.

Lemma unchanged_frame (w w' : world) : unchanged w w' -> frame w w'.
Proof.
  intros [Hs [Hr Ht]]. split; [exact Hs|]. split; [exact Hr|].
  exists []. rewrite app_nil_r. split; [exact Ht|constructor].
Qed.

Lemma frame_step (w : world) (ev : event) : quiet ev -> frame w (step [ev] w).
Proof.
  intros Hq. repeat split. exists [ev]. split; [reflexivity|].
  constructor; [exact Hq|constructor].
Qed.

Lemma is_get_quiet (evs : list event) : Forall is_get evs -> Forall quiet evs.
Proof.
  apply Forall_impl. intros [u r|p|s|f ok]; simpl; tauto.
Qed.

Section Coordinator.
Context `{PyRuntime} `{Env}.

Lemma get_last_run_timestamp_unchanged (w : world) :
  exists d w', get_last_run_timestamp w = (Ok d, w') /\ unchanged w w'.
Proof.
  rewrite get_last_run_timestamp_eq. cbv zeta.
  assert (H1 : unchanged w (step [] w)) by apply unchanged_step, unchanged_refl.
  assert (H2 : unchanged w (step [] (step [] w))) by apply unchanged_step, H1.
  destruct (stamp w) as [| |text]; eauto.
  destruct (fromisoformat (Text.strip text)) as [last_run|]; eauto.
  destruct (dt_lt last_run _) as [[|]|]; eauto.
Qed.

Lemma scrape_website_news_frame (url company : string) (since_date : datetime)
    (w : world) :
  exists res w',
    scrape_website_news url company since_date w = (Ok res, w') /\ frame w w'.
Proof.
  destruct (paths_loop_spec url company since_date news_paths w)
    as [res [w' [n [evs [E [Et [Es [Er [Hg _]]]]]]]]].
  exists res, w'. split; [exact E|]. split; [exact Es|]. split; [exact Er|].
  exists evs. split; [exact Et|apply is_get_quiet; exact Hg].
Qed.

Lemma websites_loop_frame (company_name : string) (since_date : datetime)
    (sites : list string) (acc : list Announcement) (w : world) :
  frame w (snd (websites_loop company_name since_date sites acc w)).
Proof.
  revert acc w. induction sites as [|site rest IH]; intros acc w;
    [apply frame_refl|].
  cbn [websites_loop]. unfold bind at 1.
  destruct (scrape_website_news_frame site company_name since_date w)
    as [raw [w1 [E F1]]].
  rewrite E. unfold bind at 1. rewrite analyze_loop_eq.
  destruct raw as [|r raw']; [|exact F1].
  unfold bind at 1. unfold time_sleep.
  apply (frame_trans _ w1); [exact F1|].
  apply (frame_trans _ (step [EvSleep 2] w1)); [apply frame_step; exact I|].
  apply IH.
Qed.

Lemma companies_loop_frame (since_date : datetime)
    (items : list (string * company_info)) (acc : list Announcement)
    (w : world) :
  frame w (snd (companies_loop since_date items acc w)).
Proof.
  revert acc w. induction items as [|[key info] rest IH]; intros acc w;
    [apply frame_refl|].
  cbn [companies_loop]. unfold bind at 1.
  pose proof (websites_loop_frame (name info) since_date (websites info) acc w)
    as F1.
  destruct (websites_loop _ _ _ _ _) as [[acc'|e] w1]; simpl in F1;
    [|exact F1].
  apply (frame_trans _ w1); [exact F1|apply IH].
Qed.

(** No announcement is ever collected: a collection that returns found no
    candidate at all. *)
Lemma websites_loop_ok (company_name : string) (since_date : datetime)
    (sites : list string) (acc acc' : list Announcement) (w w' : world) :
  websites_loop company_name since_date sites acc w = (Ok acc', w') ->
  acc' = acc.
Proof.
  revert acc w. induction sites as [|site rest IH]; intros acc w;
    cbn [websites_loop].
  - unfold ret. intros E. inversion E. reflexivity.
  - unfold bind at 1.
    destruct (scrape_website_news_frame site company_name since_date w)
      as [raw [w1 [E _]]].
    rewrite E. unfold bind at 1. rewrite analyze_loop_eq.
    destruct raw as [|r raw']; [|discriminate].
    unfold bind at 1. unfold time_sleep. apply IH.
Qed.

Lemma collect_announcements_ok (since_date : datetime)
    (l : list Announcement) (w w' : world) :
  collect_announcements since_date w = (Ok l, w') -> l = [].
Proof.
  unfold collect_announcements.
  assert (G : forall items acc acc' w0 w0',
             companies_loop since_date items acc w0 = (Ok acc', w0') ->
             acc' = acc).
  { induction items as [|[key info] rest IH]; intros acc acc' w0 w0';
      cbn [companies_loop].
    - unfold ret. intros E. inversion E. reflexivity.
    - unfold bind at 1.
      destruct (websites_loop _ _ _ _ _) as [[acc1|e] w1] eqn:E1;
        [|discriminate].
      apply websites_loop_ok in E1. subst acc1. apply IH. }
  apply G.
Qed.

Lemma generate_report_unchanged (l : list Announcement) (w : world) :
  unchanged w (snd (generate_report l w)).
Proof.
  destruct l as [|a t]; [apply unchanged_refl|].
  rewrite generate_report_eq by discriminate.
  destruct (render_companies _ _); apply unchanged_step, unchanged_refl.
Qed.

(** [save_report] opens the report file once and never raises. *)
Lemma save_report_eq (report : string) (w : world) :
  exists filename ok w',
    save_report report w = (Ok tt, w')
    /\ filename = reports_dir ++ "/competitor_report_"
                  ++ strftime (reading (steps w)) "%Y-%m-%d" ++ ".md"
    /\ trace w' = (trace w ++ [EvWrite filename ok])%list
    /\ stamp w' = stamp w.
Proof.
  unfold save_report, try_except, bind, datetime_now, open_write,
    write_report, ret.
  cbv zeta. cbn [steps step]. fold (reading (steps w)).
  set (filename := reports_dir ++ "/competitor_report_"
                   ++ strftime (reading (steps w)) "%Y-%m-%d" ++ ".md").
  exists filename, (can_write (S (steps w)) filename).
  destruct (can_write (S (steps w)) filename); eexists;
    (split; [reflexivity|]); (split; [reflexivity|]); split; simpl;
    rewrite ?app_nil_r; reflexivity.
Qed.

(** [update_timestamp] opens the timestamp file once, stores the clock
    reading it takes next when the file opened, leaves the file as it was
    otherwise, and never raises. *)
Lemma update_timestamp_eq (w : world) :
  exists ok w',
    update_timestamp w = (Ok tt, w')
    /\ ok = can_write (steps w) timestamp_file
    /\ trace w' = (trace w ++ [EvWrite timestamp_file ok])%list
    /\ stamp w' = (if ok then Content (isoformat (reading (S (steps w))))
                   else stamp w).
Proof.
  unfold update_timestamp, try_except, bind, open_write, datetime_now,
    write_stamp, ret.
  cbv zeta. exists (can_write (steps w) timestamp_file).
  destruct (can_write (steps w) timestamp_file); eexists;
    (split; [reflexivity|]); (split; [reflexivity|]); split; simpl;
    rewrite ?app_nil_r; reflexivity.
Qed.

(** C2. A run that completes has opened the timestamp file for writing
    exactly once, as its last interaction, after the collection and right
    after the report file of the day was opened; it has stored the clock
    reading taken then when the file opened, and has left the stored
    timestamp as it was when the file did not open (the failure is only
    logged). A run that raises
    has not opened any file for writing, and the stored timestamp is the one
    it found. *)
Theorem run_advances_window_last (w : world) :
  exists r w' evs,
    run w = (r, w')
    /\ trace w' = (trace w ++ evs)%list
    /\ match r with
       | Ok _ =>
           exists evs0 filename ok1 ok2,
             evs = (evs0 ++ [EvWrite filename ok1; EvWrite timestamp_file ok2])%list
             /\ Forall quiet evs0
             /\ (exists now, filename = reports_dir ++ "/competitor_report_"
                                         ++ strftime now "%Y-%m-%d" ++ ".md")
             /\ filename <> timestamp_file
             /\ stamp w' = (if ok2 : bool
                            then Content (isoformat (reading (pred (steps w'))))
                            else stamp w)
       | Raise _ => Forall quiet evs /\ stamp w' = stamp w
       end.
Proof.
  unfold run. unfold bind at 1.
  destruct (get_last_run_timestamp_unchanged w) as [d [w1 [E1 U1]]].
  rewrite E1. unfold bind at 1. unfold collect_announcements.
  pose proof (companies_loop_frame d companies [] w1) as F2.
  destruct (companies_loop d companies [] w1) as [[anns|e] w2]; simpl in F2.
  - unfold bind at 1.
    pose proof (generate_report_unchanged anns w2) as U3.
    destruct (generate_report anns w2) as [[[report l']|e] w3]; simpl in U3.
    + pose proof (frame_trans _ _ _ (unchanged_frame _ _ U1)
                    (frame_trans _ _ _ F2 (unchanged_frame _ _ U3))) as F.
      destruct F as [Fs [_ [evs0 [Ft Fq]]]].
      unfold bind at 1.
      destruct (save_report_eq report w3) as [filename [ok1 [w4 [E4 [Ef [T4 S4]]]]]].
      rewrite E4.
      destruct (update_timestamp_eq w4) as [ok2 [w5 [E5 [Eok [T5 S5]]]]].
      exists (Ok tt), w5,
        (evs0 ++ [EvWrite filename ok1; EvWrite timestamp_file ok2])%list.
      split; [exact E5|]. split.
      { rewrite T5, T4, Ft, <- !app_assoc. reflexivity. }
      exists evs0, filename, ok1, ok2. split; [reflexivity|].
      split; [exact Fq|]. split; [eexists; exact Ef|]. split.
      { rewrite Ef. unfold reports_dir, timestamp_file. simpl. discriminate. }
      rewrite S5. destruct ok2; [|congruence].
      do 3 f_equal.
      revert E5. unfold update_timestamp, try_except, bind, open_write,
        datetime_now, write_stamp, ret. rewrite <- Eok. intros E5. inversion E5. reflexivity.
    + pose proof (frame_trans _ _ _ (unchanged_frame _ _ U1)
                    (frame_trans _ _ _ F2 (unchanged_frame _ _ U3))) as F.
      destruct F as [Fs [_ [evs [Ft Fq]]]].
      exists (Raise e), w3, evs. split; [reflexivity|]. split; [exact Ft|].
      split; [exact Fq|exact Fs].
  - pose proof (frame_trans _ _ _ (unchanged_frame _ _ U1) F2) as F.
    destruct F as [Fs [_ [evs [Ft Fq]]]].
    exists (Raise e), w2, evs. split; [reflexivity|]. split; [exact Ft|].
    split; [exact Fq|exact Fs].
Qed.

End Coordinator.

(** ** Concrete runs *)

Module Runs.

Import Sample.


(** A timestamp file that does not hold a timestamp: 7 days before the
    second reading. *)
Lemma get_last_run_timestamp_fails_soft_witness :
  @fromisoformat runtime (Text.strip "yesterday") = None
  /\ fst (@get_last_run_timestamp runtime offline (start (Content "yesterday")))
     = Ok {| wall := ticking 1 - timedelta_days 7; utcoffset := None |}.
Proof.
  split; [vm_compute; reflexivity|].
  refine (@get_last_run_timestamp_fails_soft runtime offline
            (start (Content "yesterday")) _).
  right. right. exists "yesterday". split; [reflexivity|vm_compute; reflexivity].
Defined.

(** A block dated exactly [since_date] is kept. *)
Lemma scrape_website_news_cutoff_witness :
  exists res w',
    @selectors_loop runtime press_site "https://www.uponor.com"
      "https://www.uponor.com/press" "Uponor" week_ago press_page
      article_selectors [] (start Missing) = (Ok res, w')
    /\ In (@candidate runtime "https://www.uponor.com"
             "https://www.uponor.com/press" "Uponor" launch
             "  Uponor Launches New PEX-A Fitting Line " week_ago) res.
Proof.
  refine (proj2 (proj2 (@scrape_website_news_cutoff runtime press_site
                          "https://www.uponor.com" "Uponor" week_ago
                          (start Missing)))
                "https://www.uponor.com/press" press_page [] (start Missing)
                launch "  Uponor Launches New PEX-A Fitting Line " _ _ _).
  - vm_compute. left. reflexivity.
  - reflexivity.
  - intros n. vm_compute. reflexivity.
Defined.

Lemma three_renderable : Forall (@renderable) three.
Proof.
  repeat constructor; eexists; vm_compute; reflexivity.
Defined.

(** Three announcements of two companies: the Viega section comes first,
    then the Uponor section with the later announcement first. *)
Lemma generate_report_sections_witness :
  exists sections,
    fst (@generate_report runtime offline three (start Missing))
    = Ok (@report_header runtime (@reading offline 0) 3 ++ join sections,
          [viega_results; uponor_partnership; uponor_launch])
    /\ @sections_of runtime
         [("Viega", [viega_results]);
          ("Uponor", [uponor_partnership; uponor_launch])] sections.
Proof.
  destruct (@generate_report_sections runtime offline three (start Missing)
              ltac:(discriminate) three_renderable)
    as [sections [E [Hs _]]].
  exists sections. split; [rewrite E; reflexivity|exact Hs].
Defined.

(** Two calls within the same second, the second on the list as the first
    left it: the same text. *)
Lemma generate_report_repeatable_witness :
  @strftime runtime (@reading quick 1) strftime_format
  = @strftime runtime (@reading quick 0) strftime_format
  /\ exists report,
       fst (@generate_report runtime quick three (later 0))
       = Ok (report, sorted_three)
       /\ fst (@generate_report runtime quick sorted_three (later 1))
          = Ok (report, sorted_three).
Proof.
  assert (Hs : @strftime runtime (@reading quick 1) strftime_format
               = @strftime runtime (@reading quick 0) strftime_format)
    by (vm_compute; reflexivity).
  split; [exact Hs|].
  destruct (@generate_report_total runtime quick three (later 0)
              ltac:(discriminate) three_renderable) as [sections [_ E]].
  destruct (@generate_report_repeatable runtime quick three
              (sort_reverse three) (later 0) _ (later 1) _ E Hs)
    as [H1 _].
  eexists. split; [rewrite E; reflexivity|exact H1].
Defined.

(** The call on the three announcements leaves the list sorted. *)
Lemma generate_report_sorts_in_place_witness :
  exists report,
    @generate_report runtime offline three (start Missing)
    = (Ok (report, sorted_three), step [] (start Missing)).
Proof.
  exact (proj2 (@generate_report_sorts_in_place runtime offline three
                  (start Missing) ltac:(discriminate)) three_renderable).
Defined.

(** A run in which no file opens for writing completes, and the stored
    timestamp is still the one it found: the marker was not advanced. *)
Lemma run_without_advance :
  fst (@run runtime read_only (start (Content "2024-06-01T00:00:00"))) = Ok tt
  /\ stamp (snd (@run runtime read_only (start (Content "2024-06-01T00:00:00"))))
     = Content "2024-06-01T00:00:00"
  /\ last (trace (snd (@run runtime read_only
                         (start (Content "2024-06-01T00:00:00")))))
          (EvSleep 0)
     = EvWrite timestamp_file false.
Proof. vm_compute. repeat split. Qed.

(** A run that meets a candidate raises, and leaves the timestamp. *)
Example run_with_candidate :
  fst (@run runtime press_site (start (Content "2024-06-01T00:00:00")))
  = Raise ValueError
  /\ stamp (snd (@run runtime press_site (start (Content "2024-06-01T00:00:00"))))
     = Content "2024-06-01T00:00:00".
Proof. vm_compute. split; reflexivity. Qed.

(** A run that completes with a writable store advances the marker to the
    reading taken at the end. *)
Example run_offline :
  fst (@run runtime offline (start Missing)) = Ok tt
  /\ stamp (snd (@run runtime offline (start Missing)))
     = Content "2024-06-15T12:00:26".
Proof. vm_compute. split; reflexivity. Qed.


(** A path that yields a candidate ends the trial: [/news] answers 404,
    [/press] yields the launch, and no third path is fetched. *)
Example scrape_stops_at_first_candidate :
  urls_fetched
    (trace (snd (@scrape_website_news runtime press_site
                   "https://www.uponor.com" "Uponor" week_ago (start Missing))))
  = ["https://www.uponor.com/news"; "https://www.uponor.com/press"]
  /\ option_map Raw.title
       (hd_error match fst (@scrape_website_news runtime press_site
                              "https://www.uponor.com" "Uponor" week_ago
                              (start Missing)) with
                 | Ok res => res
                 | Raise _ => []
                 end)
     = Some "Uponor Launches New PEX-A Fitting Line".
Proof. vm_compute. split; reflexivity. Qed.

(** The same list, rendered at two readings of the clock one second apart:
    the two texts differ in their generation line. *)
Lemma generate_report_differs_with_clock :
  match fst (@generate_report runtime offline [uponor_launch] (later 0)),
        fst (@generate_report runtime offline [uponor_launch] (later 1)) with
  | Ok (r1, _), Ok (r2, _) =>
      Text.contains "Report generated on: 2024-06-15 12:00:00" r1 = true
      /\ Text.contains "Report generated on: 2024-06-15 12:00:01" r2 = true
      /\ String.eqb r1 r2 = false
  | _, _ => False
  end.
Proof. vm_compute. repeat split. Qed.

(** A list of one announcement is the same list after the call. *)
Lemma generate_report_leaves_singleton :
  match fst (@generate_report runtime offline [uponor_launch] (start Missing)) with
  | Ok (_, l') => l' = [uponor_launch]
  | Raise _ => False
  end.
Proof. vm_compute. reflexivity. Qed.

(** The scenario of an accepted launch: it shows under its company with
    its score to one decimal place. *)
Example report_shows_launch :
  match fst (@generate_report runtime offline [uponor_launch] (start Missing)) with
  | Ok (r, _) =>
      Text.contains ("## Uponor" ++ Text.nl ++ Text.nl
                     ++ "### Uponor Launches New PEX-A Fitting Line") r = true
      /\ Text.contains "**Importance Score:** 0.8/1.0" r = true
  | Raise _ => False
  end.
Proof. vm_compute. split; reflexivity. Qed.

End Runs.

(** * Further properties *)

(** ** Run-window tracker, continued *)

Section TrackerMore.
Context `{PyRuntime} `{Env}.

(** X1. Whatever the timestamp file holds, the call returns a naive
    datetime that is not older than 30 days before its first clock reading,
    provided the clock does not go back between its two readings; it opens
    no file and leaves files and trace as they are. *)
Theorem get_last_run_timestamp_bounded (w : world) :
  clock (steps w) <= clock (S (steps w)) ->
  exists d w',
    get_last_run_timestamp w = (Ok d, w')
    /\ utcoffset d = None
    /\ clock (steps w) - timedelta_days 30 <= wall d
    /\ unchanged w w'.
Proof.
  intros Hc. rewrite get_last_run_timestamp_eq. cbv zeta.
  assert (U1 : unchanged w (step [] w)) by apply unchanged_step, unchanged_refl.
  assert (U2 : unchanged w (step [] (step [] w))) by apply unchanged_step, U1.
  assert (Hf : exists d w',
             (Ok (dt_sub (reading (S (steps w))) (timedelta_days 7)),
              step [] (step [] w)) = (Ok d, w')
             /\ utcoffset d = None
             /\ clock (steps w) - timedelta_days 30 <= wall d
             /\ unchanged w w').
  { eexists. eexists. split; [reflexivity|]. split; [reflexivity|].
    split; [|exact U2]. unfold dt_sub, reading, timedelta_days. simpl. lia. }
  destruct (stamp w) as [| |text]; try exact Hf.
  destruct (fromisoformat (Text.strip text)) as [last_run|]; [|exact Hf].
  destruct (dt_lt last_run _) as [[|]|] eqn:E; [| |exact Hf].
  - eexists. eexists. split; [reflexivity|]. split; [reflexivity|].
    split; [|exact U1]. unfold dt_sub, reading. simpl. lia.
  - exists last_run, (step [] w). split; [reflexivity|].
    unfold dt_lt, dt_compare, dt_sub, reading in E. simpl in E.
    destruct (utcoffset last_run) as [off|]; [discriminate|].
    split; [reflexivity|]. split; [|exact U1].
    simpl in E. destruct (wall last_run ?= _) eqn:Ec; try discriminate.
    + apply Z.compare_eq in Ec. unfold timedelta_days in *. lia.
    + apply Z.compare_gt_iff in Ec. unfold timedelta_days in *. lia.
Qed.

(** X3. Round trip of the window marker: once [update_timestamp] has stored
    a reading (the file opened, and the ISO text of the reading parses back
    to it), a later [get_last_run_timestamp] whose own reading is at most 30
    days after it returns exactly the stored reading. *)
Theorem update_then_get_last_run_timestamp (w : world) :
  let stored := reading (S (steps w)) in
  let w1 := snd (update_timestamp w) in
  can_write (steps w) timestamp_file = true ->
  fromisoformat (Text.strip (isoformat stored)) = Some stored ->
  clock (steps w1) - timedelta_days 30 <= clock (S (steps w)) ->
  stamp w1 = Content (isoformat stored)
  /\ fst (get_last_run_timestamp w1) = Ok stored.
Proof.
  intros stored w1 Hw Hp Hc.
  assert (Es : stamp w1 = Content (isoformat stored)).
  { unfold w1, update_timestamp, try_except, bind, open_write, datetime_now,
      write_stamp, ret. rewrite Hw. reflexivity. }
  split; [exact Es|].
  rewrite get_last_run_timestamp_eq. cbv zeta. rewrite Es, Hp.
  rewrite (dt_lt_naive stored (dt_sub (reading (steps w1)) (timedelta_days 30))
             eq_refl eq_refl).
  replace (wall stored <? wall (dt_sub (reading (steps w1)) (timedelta_days 30)))
    with false; [reflexivity|].
  symmetry. apply Z.ltb_ge. unfold stored, dt_sub, reading. simpl. simpl in Hc. lia.
Qed.

End TrackerMore.

(** ** Report store *)

Section Store.
Context `{PyRuntime} `{Env}.

(** X4. [save_report] never raises and leaves the timestamp file alone. When
    the file of the day opens, that file holds the report afterwards,
    whatever it held before (a second report of the same day replaces the
    first), and every other file is as it was; when it does not open, the
    reports directory is as it was. *)
Theorem save_report_latest_wins (report : string) (w : world) :
  let filename := report_filename (reading (steps w)) in
  let w' := snd (save_report report w) in
  fst (save_report report w) = Ok tt
  /\ stamp w' = stamp w
  /\ (can_write (S (steps w)) filename = true ->
      find_report filename (reports w') = Some report
      /\ forall other, other <> filename ->
           find_report other (reports w') = find_report other (reports w))
  /\ (can_write (S (steps w)) filename = false -> reports w' = reports w).
Proof.
  unfold save_report, try_except, bind, datetime_now, open_write, write_report,
    ret, report_filename.
  cbv zeta. cbn [steps step]. fold (reading (steps w)).
  set (filename := reports_dir ++ "/competitor_report_"
                   ++ strftime (reading (steps w)) "%Y-%m-%d" ++ ".md").
  destruct (can_write (S (steps w)) filename); cbn [fst snd stamp reports step].
  - split; [reflexivity|]. split; [reflexivity|]. split; [|discriminate].
    intros _. cbn [find_report]. rewrite String.eqb_refl. split; [reflexivity|].
    intros other Hne. destruct (String.eqb_spec filename other) as [E|_];
      [congruence|reflexivity].
  - split; [reflexivity|]. split; [reflexivity|]. split; [discriminate|].
    reflexivity.
Qed.

End Store.

(** ** Candidate extractor, continued *)

Lemma lstrip_head (s : string) :
  Text.lstrip s = EmptyString
  \/ exists c t, Text.lstrip s = String c t /\ Text.is_space c = false.
Proof.
  induction s as [|c t IH]; [left; reflexivity|].
  cbn [Text.lstrip]. destruct (Text.is_space c) eqn:E; [exact IH|].
  right. exists c, t. split; [reflexivity|exact E].
Qed.

Lemma rstrip_idempotent (s : string) : Text.rstrip (Text.rstrip s) = Text.rstrip s.
Proof.
  induction s as [|c t IH]; [reflexivity|].
  cbn [Text.rstrip]. destruct (Text.rstrip t) as [|x r] eqn:E.
  - destruct (Text.is_space c) eqn:Ec; [reflexivity|].
    cbn [Text.rstrip]. rewrite Ec. reflexivity.
  - cbn [Text.rstrip]. cbn [Text.rstrip] in IH. rewrite IH. reflexivity.
Qed.

Lemma rstrip_head (c : ascii) (t : string) :
  Text.is_space c = false -> exists t', Text.rstrip (String c t) = String c t'.
Proof.
  intros Ec. cbn [Text.rstrip]. destruct (Text.rstrip t) as [|x r].
  - rewrite Ec. eexists. reflexivity.
  - eexists. reflexivity.
Qed.

(** A stripped text has no white space left to strip. *)
Lemma strip_idempotent (s : string) : Text.strip (Text.strip s) = Text.strip s.
Proof.
  unfold Text.strip.
  destruct (lstrip_head s) as [E|[c [t [E Ec]]]]; rewrite E.
  - reflexivity.
  - destruct (rstrip_head c t Ec) as [t' Et]. rewrite Et.
    cbn [Text.lstrip]. rewrite Ec, <- Et. apply rstrip_idempotent.
Qed.

Lemma take_length (n : nat) (s : string) : (String.length (Text.take n s) <= n)%nat.
Proof.
  unfold Text.take. revert s. induction n as [|n IH]; intros [|c t]; simpl;
    try lia.
  specialize (IH t). lia.
Qed.

Section ExtractorMore.
Context `{PyRuntime} `{Env}.
Variables (url company : string) (since_date : datetime).

(** Every candidate the loop over the blocks adds is the [dict] of one of
    its blocks that has a title. *)
Lemma articles_loop_shape (news_url : string) (articles : list article)
    (acc : list Raw.dict) (w : world) :
  exists extra w',
    articles_loop url news_url company since_date articles acc w
    = (Ok (acc ++ extra)%list, w')
    /\ Forall (fun c => exists art t d,
                   In art articles /\ title_elem art = Some t
                   /\ c = candidate url news_url company art t d) extra.
Proof.
  revert acc w. induction articles as [|art rest IH]; intros acc w.
  - exists [], w. rewrite app_nil_r. split; [reflexivity|constructor].
  - cbn [articles_loop]. unfold bind at 1. rewrite process_article_eq.
    assert (Hrest : forall acc0 w0,
      exists extra w',
        articles_loop url news_url company since_date rest acc0 w0
        = (Ok (acc0 ++ extra)%list, w')
        /\ Forall (fun c => exists art0 t d,
                       In art0 (art :: rest) /\ title_elem art0 = Some t
                       /\ c = candidate url news_url company art0 t d) extra).
    { intros acc0 w0. destruct (IH acc0 w0) as [extra [w' [E Hf]]].
      exists extra, w'. split; [exact E|].
      eapply Forall_impl; [|exact Hf].
      intros c [art0 [t [d [Hin [Et Ec]]]]]. exists art0, t, d.
      split; [right; exact Hin|]. split; assumption. }
    destruct (title_elem art) as [t|] eqn:Et; [|apply Hrest].
    cbv zeta. set (d := resolve_date art (reading (steps w))).
    destruct (dt_ge d since_date) as [[|]|e]; try apply Hrest.
    destruct (Hrest (acc ++ [candidate url news_url company art t d])%list
                    (step [] w)) as [extra [w' [E Hf]]].
    exists (candidate url news_url company art t d :: extra), w'.
    rewrite E, <- app_assoc. split; [reflexivity|].
    constructor; [|exact Hf].
    exists art, t, d. split; [left; reflexivity|]. split; [exact Et|reflexivity].
Qed.

(** X6. Every candidate a site scrape returns carries the company it was
    asked for and the source tag [website]; its title has no leading or
    trailing white space and its content is at most 1000 characters long. *)
Theorem scrape_website_news_candidates (w : world) :
  exists res w',
    scrape_website_news url company since_date w = (Ok res, w')
    /\ Forall (fun c => Raw.company c = company
                        /\ Raw.source c = "website"
                        /\ Text.strip (Raw.title c) = Raw.title c
                        /\ (String.length (Raw.content c) <= 1000)%nat) res.
Proof.
  destruct (paths_loop_spec url company since_date news_paths w)
    as [res [w' [n [evs [E [_ [_ [_ [_ [_ [_ [_ [_ [Hlast _]]]]]]]]]]]]]].
  exists res, w'. split; [exact E|].
  destruct res as [|c0 res0]; [constructor|].
  destruct (Hlast ltac:(discriminate)) as [evs0 [u [page [w0 [_ [_ El]]]]]].
  rewrite selectors_loop_eq in El.
  destruct (articles_loop_shape u (first_match page article_selectors) [] w0)
    as [extra [w1 [E1 Hf]]].
  rewrite E1 in El. inversion El; subst.
  eapply Forall_impl; [|exact Hf].
  intros c [art [t [d [_ [_ ->]]]]]. cbn [candidate Raw.company Raw.source
    Raw.title Raw.content].
  split; [reflexivity|]. split; [reflexivity|].
  split; [apply strip_idempotent|apply take_length].
Qed.

(** X5. When every fetch of the site ends in a status other than 200 or in
    a [requests.RequestException], the scrape fetches all six news paths, in
    order, and returns no candidate, without raising. *)
Theorem scrape_website_news_all_fail (w : world) :
  (forall n u, match http n u with
               | Response z _ => z <> 200
               | RequestException => True
               | OtherException => False
               end) ->
  exists w' evs,
    scrape_website_news url company since_date w = (Ok [], w')
    /\ trace w' = (trace w ++ evs)%list
    /\ urls_fetched evs = map (String.append url) news_paths.
Proof.
  intros Hfail. unfold scrape_website_news.
  generalize news_paths as paths. intros paths. revert w.
  induction paths as [|path rest IH]; intros w.
  - exists w, []. rewrite app_nil_r. repeat split.
  - cbn [paths_loop]. unfold bind at 1. rewrite visit_path_eq. cbv zeta.
    specialize (Hfail (steps w) (url ++ path)).
    set (r := http (steps w) (url ++ path)) in *.
    destruct (IH (step [EvGet (url ++ path) r] w)) as [w' [evs [E [Et Eu]]]].
    assert (G : exists w'0 evs0,
               paths_loop url company since_date rest []
                          (step [EvGet (url ++ path) r] w) = (Ok [], w'0)
               /\ trace w'0 = (trace w ++ evs0)%list
               /\ urls_fetched evs0
                  = map (String.append url) (path :: rest)).
    { exists w', (EvGet (url ++ path) r :: evs). split; [exact E|].
      split; [rewrite Et; simpl; rewrite <- app_assoc; reflexivity|].
      simpl. rewrite Eu. reflexivity. }
    destruct r as [z page| |]; [|exact G|contradiction].
    destruct (z =? 200) eqn:Ez; [apply Z.eqb_eq in Ez; contradiction|exact G].
Qed.

(** X7. A block that has a title but no date element is dated with the
    clock reading taken for it; when [since_date] is naive and not after any
    reading of the clock, every such block of the matching selector is kept:
    undated items count as new. *)
Theorem undated_block_is_kept (news_url : string) (page : soup)
    (acc : list Raw.dict) (w0 : world) (art : article) (t : string) :
  In art (first_match page article_selectors) ->
  title_elem art = Some t ->
  date_elem art = None ->
  utcoffset since_date = None ->
  (forall n, wall since_date <= clock n) ->
  exists res w' n,
    selectors_loop url news_url company since_date page article_selectors acc w0
    = (Ok res, w')
    /\ In (candidate url news_url company art t (reading n)) res.
Proof.
  intros Hin Et Ed Etz Hc. rewrite selectors_loop_eq.
  destruct (articles_loop_spec url news_url company since_date
              (first_match page article_selectors) acc w0)
    as [extra [w' [E [_ [_ Hk]]]]].
  assert (Hr : forall n, resolve_date art (reading n) = reading n).
  { intros n. unfold resolve_date. rewrite Ed. reflexivity. }
  destruct (Hk art t Hin Et) as [n Hn].
  { intros n. rewrite Hr.
    rewrite (dt_lt_naive (reading n) since_date eq_refl Etz).
    f_equal. apply Z.ltb_ge. apply Hc. }
  exists (acc ++ extra)%list, w', n. split; [exact E|].
  apply in_app_iff. right. rewrite Hr in Hn. exact Hn.
Qed.

(** X8. Against a naive [since_date], a block whose date parses to a
    datetime with a UTC offset (for instance one written with a trailing Z)
    is never kept, however recent: the comparison raises, the exception is
    caught and the block skipped. A page all of whose blocks are such adds
    no candidate. *)
Theorem aware_dates_are_dropped (news_url : string) (page : soup)
    (acc : list Raw.dict) (w0 : world) :
  utcoffset since_date = None ->
  (forall art now, In art (first_match page article_selectors) ->
                   utcoffset (resolve_date art now) <> None) ->
  exists w',
    selectors_loop url news_url company since_date page article_selectors acc w0
    = (Ok acc, w').
Proof.
  intros Etz. rewrite selectors_loop_eq.
  generalize (first_match page article_selectors) as articles.
  intros articles. revert w0.
  induction articles as [|art rest IH]; intros w0 Ha.
  - exists w0. reflexivity.
  - cbn [articles_loop]. unfold bind at 1. rewrite process_article_eq.
    assert (Hrest : forall w1, exists w',
               articles_loop url news_url company since_date rest acc w1
               = (Ok acc, w')).
    { intros w1. apply IH. intros a now Hin. apply Ha. right. exact Hin. }
    destruct (title_elem art) as [t|]; [|apply Hrest].
    cbv zeta.
    specialize (Ha art (reading (steps w0)) (or_introl eq_refl)).
    unfold dt_ge, dt_compare. rewrite Etz.
    destruct (utcoffset (resolve_date art (reading (steps w0)))) as [off|];
      [|congruence].
    cbn [rbind]. apply Hrest.
Qed.

End ExtractorMore.

(** ** Classifier step, continued *)

Section ClassifierMore.
Context `{PyRuntime} `{Env}.

(** X10. How the decision on a decoded answer fails or declines: an answer
    that is not an object raises [AttributeError]; an object whose flag is
    absent or falsy declines without looking at any other field; with a
    truthy flag, a score that is present but not a number raises
    [TypeError]; and with an accepted score, the first of [category],
    [summary], [implications] that is missing raises [KeyError]. *)
Theorem decide_failures (announcement : Raw.dict) :
  (forall res, (forall d, res <> PDict d) ->
               decide announcement res = Raise AttributeError)
  /\ (forall d, match lookup "should_include" d with
                | Some flag => truthy flag = false
                | None => True
                end ->
                decide announcement (PDict d) = Ok None)
  /\ (forall d flag score,
        lookup "should_include" d = Some flag -> truthy flag = true ->
        lookup "importance_score" d = Some score ->
        match score with
        | PNone | PStr _ | PList _ | PDict _ => True
        | _ => False
        end ->
        decide announcement (PDict d) = Raise TypeError)
  /\ (forall d flag score,
        lookup "should_include" d = Some flag -> truthy flag = true ->
        lookup "importance_score" d = Some score ->
        py_gt_float score 0.3 = Ok true ->
        (lookup "category" d = None ->
         decide announcement (PDict d) = Raise (KeyError "category"))
        /\ (lookup "category" d <> None -> lookup "summary" d = None ->
            decide announcement (PDict d) = Raise (KeyError "summary"))
        /\ (lookup "category" d <> None -> lookup "summary" d <> None ->
            lookup "implications" d = None ->
            decide announcement (PDict d) = Raise (KeyError "implications"))).
Proof.
  split; [|split; [|split]].
  - intros res Hn. destruct res; try reflexivity. exfalso. eapply Hn. reflexivity.
  - intros d Hf. unfold decide, py_get, rbind.
    destruct (lookup "should_include" d) as [flag|]; [rewrite Hf|]; reflexivity.
  - intros d flag score Ef Et Es Hs. unfold decide, py_get, rbind.
    rewrite Ef, Et, Es. destruct score; try contradiction; reflexivity.
  - intros d flag score Ef Et Es Eg. unfold decide, py_get, py_getitem, rbind.
    rewrite Ef, Et, Es, Eg. split; [|split].
    + intros Ec. rewrite Ec. reflexivity.
    + intros Hc Eu. destruct (lookup "category" d); [|congruence].
      rewrite Eu. reflexivity.
    + intros Hc Hu Ei. destruct (lookup "category" d); [|congruence].
      destruct (lookup "summary" d); [|congruence]. rewrite Ei. reflexivity.
Qed.

End ClassifierMore.

(** ** Collection and run, continued *)

Section CoordinatorMore.
Context `{PyRuntime} `{Env}.

Lemma websites_loop_outcome (company_name : string) (since_date : datetime)
    (sites : list string) (acc : list Announcement) (w w' : world)
    (r : result (list Announcement)) :
  websites_loop company_name since_date sites acc w = (r, w') ->
  r = Ok acc \/ r = Raise ValueError.
Proof.
  revert w. induction sites as [|site rest IH]; intros w; cbn [websites_loop].
  - unfold ret. intros E. inversion E. left. reflexivity.
  - unfold bind at 1.
    destruct (scrape_website_news_frame site company_name since_date w)
      as [raw [w1 [E _]]].
    rewrite E. unfold bind at 1. rewrite analyze_loop_eq.
    destruct raw as [|c raw'].
    + unfold bind at 1. unfold time_sleep. apply IH.
    + intros E1. inversion E1. right. reflexivity.
Qed.

Lemma companies_loop_outcome (since_date : datetime)
    (items : list (string * company_info)) (acc : list Announcement)
    (w w' : world) (r : result (list Announcement)) :
  companies_loop since_date items acc w = (r, w') ->
  r = Ok acc \/ r = Raise ValueError.
Proof.
  revert w. induction items as [|[key info] rest IH]; intros w;
    cbn [companies_loop].
  - unfold ret. intros E. inversion E. left. reflexivity.
  - unfold bind at 1.
    destruct (websites_loop _ _ _ _ _) as [[acc1|e] w1] eqn:E1.
    + destruct (websites_loop_outcome _ _ _ _ _ _ _ E1) as [Ho|Ho];
        [|discriminate].
      inversion Ho; subst. apply IH.
    + destruct (websites_loop_outcome _ _ _ _ _ _ _ E1) as [Ho|Ho];
        [discriminate|].
      intros E. inversion E; subst. right. exact Ho.
Qed.

(** X11. A collection has one of two outcomes: it returns the empty list
    (no site yielded a candidate), or it raises [ValueError] (some site did,
    and the analysis of the first candidate raised). It never returns an
    announcement, and in both cases it leaves the files as they are. *)
Theorem collect_announcements_outcome (since_date : datetime) (w : world) :
  (fst (collect_announcements since_date w) = Ok []
   \/ fst (collect_announcements since_date w) = Raise ValueError)
  /\ stamp (snd (collect_announcements since_date w)) = stamp w
  /\ reports (snd (collect_announcements since_date w)) = reports w.
Proof.
  unfold collect_announcements. split.
  - destruct (companies_loop since_date companies [] w) as [r w'] eqn:E.
    exact (companies_loop_outcome _ _ _ _ _ _ E).
  - destruct (companies_loop_frame since_date companies [] w) as [Hs [Hr _]].
    split; assumption.
Qed.

Lemma save_report_reports (report : string) (w : world) :
  exists w',
    save_report report w = (Ok tt, w')
    /\ (reports w' = reports w
        \/ reports w' = (report_filename (reading (steps w)), report) :: reports w).
Proof.
  unfold save_report, try_except, bind, datetime_now, open_write, write_report,
    ret, report_filename.
  cbv zeta. cbn [steps step]. fold (reading (steps w)).
  destruct (can_write _ _); eexists; (split; [reflexivity|]); cbn [reports step];
    [right|left]; reflexivity.
Qed.

Lemma update_timestamp_reports (w : world) :
  exists w', update_timestamp w = (Ok tt, w') /\ reports w' = reports w.
Proof.
  unfold update_timestamp, try_except, bind, open_write, datetime_now,
    write_stamp, ret.
  destruct (can_write _ _); eexists; (split; [reflexivity|]); reflexivity.
Qed.

(** X12. A run ends in one of three ways: it raises [ValueError] and leaves
    the reports directory and the timestamp file as they are; or it
    completes and the report file it tried to write did not open, so the
    directory is as it was; or it completes and the file of the day holds
    the fixed no-announcements text. A run never saves a report that lists
    an announcement. *)
Theorem run_outcome (w : world) :
  (fst (run w) = Raise ValueError
   /\ reports (snd (run w)) = reports w /\ stamp (snd (run w)) = stamp w)
  \/ (fst (run w) = Ok tt /\ reports (snd (run w)) = reports w)
  \/ (fst (run w) = Ok tt
      /\ exists now,
           reports (snd (run w))
           = (report_filename now, no_announcements_report) :: reports w).
Proof.
  assert (G : forall r w', run w = (r, w') ->
    (r = Raise ValueError /\ reports w' = reports w /\ stamp w' = stamp w)
    \/ (r = Ok tt /\ reports w' = reports w)
    \/ (r = Ok tt
        /\ exists now,
             reports w'
             = (report_filename now, no_announcements_report) :: reports w)).
  { unfold run. unfold bind at 1.
    destruct (get_last_run_timestamp_unchanged w) as [d [w1 [E1 [Hs1 [Hr1 _]]]]].
    rewrite E1. unfold bind at 1. unfold collect_announcements.
    destruct (companies_loop d companies [] w1) as [r2 w2] eqn:E2.
    destruct (companies_loop_frame d companies [] w1) as [Hs2 [Hr2 _]].
    rewrite E2 in Hs2, Hr2. cbn [snd] in Hs2, Hr2.
    destruct (companies_loop_outcome _ _ _ _ _ _ E2) as [Ho|Ho]; subst r2.
    - unfold bind at 1. cbn [generate_report]. unfold ret at 1.
      unfold bind at 1.
      destruct (save_report_reports no_announcements_report w2)
        as [w3 [E3 Hr3]].
      rewrite E3.
      destruct (update_timestamp_reports w3) as [w4 [E4 Hr4]].
      rewrite E4. intros r w' E. inversion E; subst. right.
      destruct Hr3 as [Hr3|Hr3].
      + left. split; [reflexivity|congruence].
      + right. split; [reflexivity|]. exists (reading (steps w2)). congruence.
    - intros r w' E. inversion E; subst. left.
      split; [reflexivity|]. split; congruence. }
  destruct (run w) as [r w'] eqn:E. exact (G r w' eq_refl).
Qed.

End CoordinatorMore.

(** ** Report builder, continued *)



Section ReportMore.
Context `{PyRuntime} `{Env}.

Lemma blocks_of_renderable (g : list Announcement) (blocks : list string) :
  blocks_of g blocks -> Forall renderable g.
Proof.
  induction 1 as [|a b g blocks E _ IH]; constructor; [|exact IH].
  unfold render_announcement in E. unfold renderable.
  destruct (format_1f (importance_score a)) as [s|e]; [eauto|discriminate].
Qed.

Lemma sections_of_renderable (companies : list (string * list Announcement))
    (sections : list string) :
  sections_of companies sections ->
  Forall (fun cg => Forall renderable (snd cg)) companies.
Proof.
  induction 1 as [|cg sec companies sections [blocks [Hb _]] _ IH];
    constructor; [|exact IH].
  exact (blocks_of_renderable _ _ Hb).
Qed.

Lemma render_announcement_raise (a : Announcement) (e : exn) :
  render_announcement a = Raise e ->
  e = TypeError \/ e = ValueError \/ e = OverflowError.
Proof.
  unfold render_announcement, format_1f.
  destruct (importance_score a) as [| |z| | | |]; cbn [rbind]; intros E;
    try discriminate E; try (inversion E; tauto).
  destruct (Num.int_as_double z) as [[m k]|]; cbn [rbind] in E;
    [discriminate E|inversion E; tauto].
Qed.

Lemma render_announcements_raise (g : list Announcement) (report : string)
    (e : exn) :
  render_announcements g report = Raise e ->
  e = TypeError \/ e = ValueError \/ e = OverflowError.
Proof.
  revert report. induction g as [|a t IH]; simpl; intros report E;
    [discriminate|].
  destruct (render_announcement a) as [b|e'] eqn:Eb; simpl in E.
  - exact (IH _ E).
  - inversion E; subst. exact (render_announcement_raise _ _ Eb).
Qed.

Lemma render_companies_raise (companies : list (string * list Announcement))
    (report : string) (e : exn) :
  render_companies companies report = Raise e ->
  e = TypeError \/ e = ValueError \/ e = OverflowError.
Proof.
  revert report. induction companies as [|[c g] t IH];
    cbn [render_companies]; intros report E; [discriminate|].
  destruct (render_announcements g _) as [r|e'] eqn:Er; cbn [rbind] in E.
  - exact (IH _ E).
  - inversion E; subst. exact (render_announcements_raise _ _ _ Er).
Qed.

(** X14. On a non-empty list the call reads the clock once and returns
    exactly when every score can be shown with one decimal place; when one
    cannot, it raises the exception of that formatting ([TypeError],
    [ValueError] or [OverflowError]) and no report is made. *)
Theorem generate_report_returns_iff (l : list Announcement) (w : world) :
  l <> [] ->
  snd (generate_report l w) = step [] w
  /\ ((exists res, fst (generate_report l w) = Ok res) <-> Forall renderable l)
  /\ (forall e, fst (generate_report l w) = Raise e ->
        e = TypeError \/ e = ValueError \/ e = OverflowError).
Proof.
  intros Hne. rewrite (generate_report_eq _ _ Hne).
  destruct (render_companies _ _) as [report|e] eqn:Er; cbn [fst snd].
  - split; [reflexivity|]. split; [|discriminate]. split; [|eauto].
    intros _. apply render_companies_inv in Er.
    destruct Er as [sections [Hs _]]. apply sections_of_renderable in Hs.
    destruct (group_by_company_grouped (sort_reverse l)) as [_ [Hg Hk]].
    apply Forall_forall. intros a Ha.
    assert (Hs' : In a (sort_reverse l))
      by (apply (Permutation_in _ (sort_reverse_perm l)); exact Ha).
    specialize (Hk a Hs'). apply in_map_iff in Hk.
    destruct Hk as [[c g] [Ec Hcg]]. simpl in Ec. subst c.
    rewrite Forall_forall in Hs. specialize (Hs _ Hcg). simpl in Hs.
    destruct (Hg _ _ Hcg) as [Eg _].
    rewrite Forall_forall in Hs. apply Hs. rewrite Eg. apply filter_In.
    split; [exact Hs'|]. unfold of_company. apply String.eqb_refl.
  - split; [reflexivity|]. split.
    + split; [intros [res E]; discriminate E|].
      intros Hr. exfalso.
      destruct (render_companies_total _
                  (report_header (reading (steps w)) (List.length l))
                  (groups_renderable l Hr)) as [sections [_ E]].
      rewrite E in Er. discriminate Er.
    + intros e' E. inversion E; subst. exact (render_companies_raise _ _ _ Er).
Qed.


End ReportMore.

(** ** Grouping, continued *)

Section GroupingMore.

Lemma dict_append_concat (k : string) (a : Announcement)
    (d : list (string * list Announcement)) :
  Permutation (List.concat (map snd (dict_append k a d)))
              (List.concat (map snd d) ++ [a]).
Proof.
  induction d as [|[k' g] t IH]; simpl; [reflexivity|].
  destruct (String.eqb k' k); simpl.
  - rewrite <- !app_assoc. apply Permutation_app_head.
    apply Permutation_app_comm.
  - rewrite <- app_assoc. apply Permutation_app_head. exact IH.
Qed.

Lemma dict_append_skip (k : string) (a : Announcement)
    (d0 d1 : list (string * list Announcement)) :
  ~ In k (map fst d0) ->
  dict_append k a (d0 ++ d1) = (d0 ++ dict_append k a d1)%list.
Proof.
  induction d0 as [|[k' g] t IH]; simpl; intros Hn; [reflexivity|].
  destruct (String.eqb_spec k' k) as [E|_]; [tauto|].
  rewrite IH by tauto. reflexivity.
Qed.

Lemma in_order_step (p : list Announcement)
    (d : list (string * list Announcement)) (a : Announcement) :
  in_order p d ->
  Forall (fun x => descending x a) p ->
  in_order (p ++ [a]) (dict_append (company a) a d).
Proof.
  intros [Ec [Ed|[d0 [k [g [x [Ed [Hk [Hx Ex]]]]]]]]] Hd.
  - subst d. simpl in Ec. subst p. split; [reflexivity|]. right.
    exists [], (company a), [a], a. simpl. repeat split; auto.
  - subst d. rewrite Forall_forall in Hd. specialize (Hd x Hx).
    unfold descending, key_lt in Hd. rewrite Ex in Hd.
    assert (Hfresh : forall c, In c (map fst d0) ->
                       String.compare (company a) k <> Gt -> c <> company a).
    { intros c Hc Hle E. subst c. rewrite Forall_forall in Hk.
      specialize (Hk _ Hc). rewrite String.compare_antisym in Hk.
      destruct (String.compare (company a) k); simpl in Hk; congruence. }
    rewrite map_app, concat_app in Ec. simpl in Ec. rewrite app_nil_r in Ec.
    destruct (String.compare k (company a)) eqn:Eka; [| discriminate |].
    + apply String.compare_eq_iff in Eka.
      assert (Hn : ~ In (company a) (map fst d0)).
      { intros Hin. apply (Hfresh _ Hin); [|reflexivity].
        rewrite <- Eka, string_compare_refl. discriminate. }
      rewrite dict_append_skip by exact Hn. simpl.
      rewrite Eka, String.eqb_refl. split.
      * rewrite map_app, concat_app. simpl. rewrite app_nil_r, <- Ec.
        rewrite app_assoc. reflexivity.
      * right. exists d0, (company a), (g ++ [a])%list, a.
        split; [reflexivity|]. split; [rewrite <- Eka; exact Hk|].
        split; [apply in_app_iff; right; left; reflexivity|reflexivity].
    + assert (Hak : String.compare (company a) k = Lt).
      { rewrite String.compare_antisym, Eka. reflexivity. }
      assert (Hn : ~ In (company a) (map fst d0)).
      { intros Hin. apply (Hfresh _ Hin); [|reflexivity].
        rewrite Hak. discriminate. }
      rewrite dict_append_skip by exact Hn. simpl.
      destruct (String.eqb_spec k (company a)) as [E|_].
      { rewrite E, string_compare_refl in Eka. discriminate. }
      split.
      * rewrite !map_app, !concat_app. simpl. rewrite ?app_nil_r, <- Ec.
        rewrite <- ?app_assoc. reflexivity.
      * right. exists (d0 ++ [(k, g)])%list, (company a), [a], a.
        split; [rewrite <- app_assoc; reflexivity|].
        split; [|split; [apply in_app_iff; right; left; reflexivity
                        |reflexivity]].
        rewrite map_app. apply Forall_app. split.
        -- eapply Forall_impl; [|exact Hk]. intros c Hc. simpl in Hc.
           eapply string_compare_lt_trans; eassumption.
        -- constructor; [exact Hak|constructor].
Qed.

Lemma in_order_fold (s p : list Announcement)
    (d : list (string * list Announcement)) :
  in_order p d ->
  StronglySorted descending (p ++ s) ->
  in_order (p ++ s)
    (fold_left (fun companies a => dict_append (company a) a companies) s d).
Proof.
  revert p d. induction s as [|a s IH]; intros p d Hi Hs; simpl.
  - rewrite app_nil_r. exact Hi.
  - replace (p ++ a :: s)%list with ((p ++ [a]) ++ s)%list in *
      by (rewrite <- app_assoc; reflexivity).
    apply IH; [|exact Hs]. apply in_order_step; [exact Hi|].
    apply Forall_forall. intros x Hx. rewrite <- app_assoc in Hs.
    apply (StronglySorted_app_inv _ _ _ Hs); [exact Hx|left; reflexivity].
Qed.

Lemma fold_dict_append_concat (s : list Announcement)
    (d : list (string * list Announcement)) :
  Permutation
    (List.concat (map snd
       (fold_left (fun companies a => dict_append (company a) a companies) s d)))
    (List.concat (map snd d) ++ s).
Proof.
  revert d. induction s as [|a s IH]; intros d; simpl.
  - rewrite app_nil_r. reflexivity.
  - rewrite IH. rewrite (dict_append_concat (company a) a d).
    rewrite <- app_assoc. reflexivity.
Qed.

(** X13. The groups of the [dict], read in order, hold every announcement
    of the list exactly once; on a list in descending key order (as the sort
    leaves it) they are the list itself, so that the blocks of the report,
    read from top to bottom, follow the sorted list without a gap or a
    repetition. *)
Theorem group_by_company_partition (l : list Announcement) :
  Permutation (List.concat (map snd (group_by_company l))) l
  /\ List.concat (map snd (group_by_company (sort_reverse l))) = sort_reverse l.
Proof.
  split.
  - apply (fold_dict_append_concat l []).
  - destruct (in_order_fold (sort_reverse l) [] []) as [E _].
    + split; [reflexivity|left; reflexivity].
    + apply sort_reverse_sorted.
    + exact E.
Qed.

End GroupingMore.

(** * Further sample runs *)

Module MoreRuns.

Import Sample.

(** The stored timestamp of January 1st, read on June 15th: the result is
    not older than May 16th. *)
Lemma get_last_run_timestamp_bounded_witness :
  exists d w',
    @get_last_run_timestamp runtime offline (start (Content new_year_text))
    = (Ok d, w')
    /\ utcoffset d = None
    /\ ticking 0 - timedelta_days 30 <= wall d
    /\ unchanged (start (Content new_year_text)) w'.
Proof.
  refine (@get_last_run_timestamp_bounded runtime offline
            (start (Content new_year_text)) _).
  vm_compute. discriminate.
Defined.

(** A stored timestamp with a UTC offset: 7 days before the second
    reading. *)
Lemma get_last_run_timestamp_aware_witness :
  fst (@get_last_run_timestamp runtime offline (start (Content aware_text)))
  = Ok {| wall := ticking 1 - timedelta_days 7; utcoffset := None |}.
Proof.
  eapply (@get_last_run_timestamp_aware runtime offline
            (start (Content aware_text)) aware_text).
  - reflexivity.
  - vm_compute. reflexivity.
  - reflexivity.
Defined.

(** The first run stores its reading, and the next call returns it. *)
Lemma update_then_get_last_run_timestamp_witness :
  stamp (snd (@update_timestamp runtime offline (start Missing)))
  = Content "2024-06-15T12:00:01"
  /\ fst (@get_last_run_timestamp runtime offline
            (snd (@update_timestamp runtime offline (start Missing))))
     = Ok (@reading offline 1).
Proof.
  apply (@update_then_get_last_run_timestamp runtime offline (start Missing)).
  - reflexivity.
  - vm_compute. reflexivity.
  - vm_compute. discriminate.
Defined.

(** A second report of the same day replaces the first. *)
Lemma save_report_latest_wins_witness :
  find_report "reports/competitor_report_2024-06-15.md"
    (reports (snd (@save_report runtime offline "second" reported)))
  = Some "second".
Proof.
  exact (proj1 (proj1 (proj2 (proj2 (@save_report_latest_wins runtime offline
                                       "second" reported)))
                      eq_refl)).
Defined.

(** An unreachable site: six fetches, no candidate. *)
Lemma scrape_website_news_all_fail_witness :
  exists w' evs,
    @scrape_website_news runtime offline "https://www.viega.com" "Viega"
      week_ago (start Missing) = (Ok [], w')
    /\ trace w' = ([] ++ evs)%list
    /\ urls_fetched evs
       = ["https://www.viega.com/news"; "https://www.viega.com/press";
          "https://www.viega.com/press-releases"; "https://www.viega.com/media";
          "https://www.viega.com/newsroom"; "https://www.viega.com/media-center"].
Proof.
  refine (@scrape_website_news_all_fail runtime offline "https://www.viega.com"
            "Viega" week_ago (start Missing) _).
  intros n u. exact I.
Defined.

(** A block without a date on the news page is kept. *)
Lemma undated_block_is_kept_witness :
  exists res w' n,
    @selectors_loop runtime offline "https://www.viega.com"
      "https://www.viega.com/news" "Viega" week_ago news_page
      article_selectors [] (start Missing) = (Ok res, w')
    /\ In (@candidate runtime "https://www.viega.com"
             "https://www.viega.com/news" "Viega" undated
             "Viega Opens Training Centre" (@reading offline n)) res.
Proof.
  refine (@undated_block_is_kept runtime offline "https://www.viega.com"
            "Viega" week_ago "https://www.viega.com/news" news_page []
            (start Missing) undated "Viega Opens Training Centre" _ _ _ _ _).
  - vm_compute. left. reflexivity.
  - reflexivity.
  - reflexivity.
  - reflexivity.
  - intros n. unfold week_ago, offline, ticking, timedelta_days.
    cbn [wall clock]. lia.
Defined.

(** A block dated the day before the run, in UTC, is dropped. *)
Lemma aware_dates_are_dropped_witness :
  exists w',
    @selectors_loop runtime offline "https://www.viega.com"
      "https://www.viega.com/news" "Viega" week_ago zulu_page
      article_selectors [] (start Missing) = (Ok [], w').
Proof.
  refine (@aware_dates_are_dropped runtime offline "https://www.viega.com"
            "Viega" week_ago "https://www.viega.com/news" zulu_page []
            (start Missing) _ _).
  - reflexivity.
  - intros art now Hin. vm_compute in Hin. destruct Hin as [E|[]].
    rewrite <- E. vm_compute. discriminate.
Defined.

(** The three sample announcements give a report. *)
Lemma generate_report_returns_iff_witness :
  exists res, fst (@generate_report runtime offline three (start Missing)) = Ok res.
Proof.
  exact (proj2 (proj1 (proj2 (@generate_report_returns_iff runtime offline three
                                (start Missing) ltac:(discriminate))))
               Runs.three_renderable).
Defined.


End MoreRuns.
